(** * pubmed_preprint_search: a shallow embedding of the search, normalisation
      and merge pipeline, with the properties of its specification.

    The Python module queries three literature services, turns every raw
    record into an article (a dict with the keys [date], [color], [html]
    and [query]), optionally filters by a time frame, merges the articles
    of several queries by the title found in their rendered fragment, and
    sorts the merged articles by date, newest first.

    Conventions of the embedding:
    - a naive [datetime] is the number of microseconds since an arbitrary
      midnight, a [timedelta] a number of microseconds, a calendar date the
      number of whole days since the same origin; the year range
      1..9999 of Python's datetime type is not represented;
    - Python strings are [string]s of 8-bit characters;
    - a network call is represented by the payload it returned and a
      call to [datetime.now()] by the reading it returned;
    - functions of Python's library whose behaviour the code relies on but
      does not define ([strptime], [strftime], [int], the [datetime]
      constructor) are section variables. *)

From Stdlib Require Import ZArith List String Ascii Bool Lia.
From Stdlib Require Import Permutation Sorted.
Import ListNotations.

Open Scope string_scope.
Open Scope Z_scope.

(* ------------------------------------------------------------------ *)
(** ** Dates and time spans *)

Module Time.

Definition datetime := Z.
Definition timedelta := Z.
Definition calendar_date := Z.

Definition us_per_day : Z := 86400000000.

(** [timedelta(days=n)] *)
Definition timedelta_days (n : Z) : timedelta := n * us_per_day.

(** [delta.days]: Python normalises a time span so that the seconds and
    microseconds are non-negative; the day count is the floor. *)
Definition days (delta : timedelta) : Z := delta / us_per_day.

(** [dt.date()] *)
Definition date_of (dt : datetime) : calendar_date := dt / us_per_day.

(** Midnight of a calendar day, as a datetime. *)
Definition midnight (d : calendar_date) : datetime := d * us_per_day.

End Time.
Import Time.

(* ------------------------------------------------------------------ *)
(** ** Colour tables *)

Definition GREEN := "#92C353".
Definition YELLOW := "#F2C94C".
Definition RED := "#E57373".

(** [get_color_by_date]: the generic helper; [now] is the reading of
    [datetime.now()] taken inside the function. *)
Definition get_color_by_date (now : datetime) (date : option datetime) : string :=
  match date with
  | None => RED
  | Some date =>
      let days_ago := days (now - date) in
      if days_ago <=? 3 then GREEN
      else if days_ago <=? 7 then YELLOW
      else RED
  end.

(** [get_researchsquare_color]; reads the clock itself. *)
Definition get_researchsquare_color (now : datetime) (date : datetime) : string :=
  let days_ago := days (now - date) in
  if days_ago <=? 7 then "#8FBC8F"
  else if days_ago <=? 30 then "#DEB887"
  else "#CD5C5C".

(** [get_pubmed_color], a closure of [search_articles] over [current_date]. *)
Definition get_pubmed_color (current_date : datetime) (date : datetime) : string :=
  let days_ago := days (current_date - date) in
  if days_ago <=? 7 then "#2E8B57"
  else if days_ago <=? 30 then "#DAA520"
  else "#B22222".

(** [get_preprint_color], a closure of [search_articles] over [current_date]. *)
Definition get_preprint_color (current_date : datetime) (date : datetime) : string :=
  let days_ago := days (current_date - date) in
  if days_ago <=? 7 then "#98FB98"
  else if days_ago <=? 30 then "#FAFAD2"
  else "#FFA07A".

(** The property a colour function has when its thresholds are inclusive:
    it is decided by the whole days elapsed, with [<=] at both steps. *)
Definition inclusive_table (table : datetime -> datetime -> string)
    (lo hi : Z) (recent moderate stale : string) : Prop :=
  forall now d : datetime,
    (days (now - d) <= lo -> table now d = recent)
    /\ (lo < days (now - d) <= hi -> table now d = moderate)
    /\ (hi < days (now - d) -> table now d = stale)
    /\ table now (now - timedelta_days lo) = recent
    /\ table now (now - timedelta_days hi) = moderate.

(* ------------------------------------------------------------------ *)
(** ** Validity window *)

(** [max_future_date = current_date + timedelta(days=30 * max_future_months)] *)
Definition max_future_date (current_date : datetime) (max_future_months : Z) : datetime :=
  current_date + timedelta_days (30 * max_future_months).

(** [is_valid_date], a closure of [search_articles] over [current_date]
    and [max_future_date]; the chained comparison is a conjunction. *)
Definition is_valid_date (current_date max_future_date : datetime) (date : datetime) : bool :=
  (current_date - timedelta_days (365 * 5) <=? date) && (date <=? max_future_date).

(* ------------------------------------------------------------------ *)
(** ** Articles *)

(** The dict appended to [all_articles] by [search_articles]. *)
Record article := mkArticle {
  date : datetime;
  color : string;
  html : string;
  query : string
}.

(** The same dict once [combine_and_display_results] has stored it in
    [seen_titles]: it has gained the key [queries]. *)
Record merged_article := mkMerged {
  stored : article;
  queries : list string
}.

(* ------------------------------------------------------------------ *)
(** ** Time frame filter *)

(** The branch on [timeframe]: the start date, or [None] when the time
    frame is not recognised (the function then returns its input). *)
Definition start_date_of (today : calendar_date) (timeframe : option string)
    : option calendar_date :=
  match timeframe with
  | Some tf =>
      if String.eqb tf "today" then Some today
      else if String.eqb tf "week" then Some (today - 7)
      else if String.eqb tf "month" then Some (today - 30)
      else None
  | None => None
  end.

(** [filter_articles_by_timeframe]; [now] is the reading of
    [datetime.now()] from which [today] is taken, [timeframe] is [None]
    for Python's [None]. *)
Definition filter_articles_by_timeframe (now : datetime) (articles : list article)
    (timeframe : option string) : list article :=
  let today := date_of now in
  match start_date_of today timeframe with
  | None => articles
  | Some start_date =>
      filter (fun article => start_date <=? date_of (date article)) articles
  end.

(* ------------------------------------------------------------------ *)
(** ** Requests with retries *)

Module Retry.

(** What one attempt of the request does: it returns a payload, raises
    [HTTPError] with a status code, or raises another exception. *)
Inductive outcome (R : Type) :=
| Returned (r : R)
| HTTPError (code : Z)
| OtherError (msg : string).
Arguments Returned {R} r.
Arguments HTTPError {R} code.
Arguments OtherError {R} msg.

(** The exceptions that leave the function. [MaxRetriesReached] is the
    [Exception] raised after the loop, [SleepValueError] the
    [ValueError] of [time.sleep] on a negative delay. *)
Inductive exn :=
| RaisedHTTPError (code : Z)
| RaisedOther (msg : string)
| MaxRetriesReached
| SleepValueError.

(** What the function does that is visible outside: the attempts, by
    loop index, and the completed sleeps, in seconds. The messages it
    prints are left out. *)
Inductive event :=
| Attempt (attempt : nat)
| Sleep (delay : Z).

Record run (R : Type) := mkRun {
  result : R + exn;
  trace : list event
}.
Arguments mkRun {R} result trace.
Arguments result {R} r.
Arguments trace {R} r.

Definition after {R} (evs : list event) (r : run R) : run R :=
  mkRun (result r) (evs ++ trace r).

(** The [for attempt in range(max_retries)] loop with [remaining]
    iterations left; [request attempt] is what the attempt with that
    index does. *)
Fixpoint attempts_from {R} (request : nat -> outcome R) (max_retries : Z)
    (remaining : nat) (attempt : nat) (delay : Z) : run R :=
  match remaining with
  | O => mkRun (inr MaxRetriesReached) []
  | S remaining' =>
      match request attempt with
      | Returned results => mkRun (inl results) [Attempt attempt]
      | HTTPError code =>
          if (code =? 500) && (Z.of_nat attempt <? max_retries - 1) then
            if delay <? 0 then mkRun (inr SleepValueError) [Attempt attempt]
            else after [Attempt attempt; Sleep delay]
                   (attempts_from request max_retries remaining' (S attempt) (delay * 2))
          else mkRun (inr (RaisedHTTPError code)) [Attempt attempt]
      | OtherError msg => mkRun (inr (RaisedOther msg)) [Attempt attempt]
      end
  end.

(** [search_pubmed]: [request] stands for the [Entrez.esearch] call and
    the decoding of its answer. *)
Definition search_pubmed {R} (request : nat -> outcome R)
    (max_retries : Z) (initial_delay : Z) : run R :=
  attempts_from request max_retries (Z.to_nat max_retries) 0 initial_delay.

(** [fetch_pubmed_details]: the same loop around [Entrez.efetch]. *)
Definition fetch_pubmed_details {R} (request : nat -> outcome R)
    (max_retries : Z) (initial_delay : Z) : run R :=
  attempts_from request max_retries (Z.to_nat max_retries) 0 initial_delay.

Definition default_max_retries : Z := 3.
Definition default_initial_delay : Z := 1.

(** The number of attempts in a trace. *)
Definition attempts_made (evs : list event) : nat :=
  List.length (filter (fun e => match e with Attempt _ => true | Sleep _ => false end) evs).

(** The delays of the sleeps of a trace, in order. *)
Definition sleeps (evs : list event) : list Z :=
  flat_map (fun e => match e with Attempt _ => [] | Sleep d => [d] end) evs.

(** The trace of [count] attempts under exponential backoff: the first
    attempt comes at once, and before every later attempt, of loop index
    [k], comes a sleep of [initial_delay * 2^(k-1)] seconds. *)
Definition scheduled (initial_delay : Z) (k : nat) : list event :=
  match k with
  | O => [Attempt 0]
  | S j => [Sleep (initial_delay * 2 ^ Z.of_nat j); Attempt k]
  end.

Definition backoff_schedule (initial_delay : Z) (count : nat) : list event :=
  flat_map (scheduled initial_delay) (seq 0 count).

(** The events from the attempt of index [first] on, [count] attempts in
    all, when the sleeps follow the schedule. *)
Definition tail_schedule (initial_delay : Z) (first count : nat) : list event :=
  match count with
  | O => []
  | S more =>
      Attempt first :: flat_map (scheduled initial_delay) (seq (S first) more)
  end.

(** A request that fails with status 500 on its first two attempts and
    answers [42] from the third on. *)
Definition twice_unavailable (attempt : nat) : outcome Z :=
  if (attempt <? 2)%nat then HTTPError 500 else Returned 42.


End Retry.

(* ------------------------------------------------------------------ *)
(** ** Python string operations used by the pipeline *)

Module PyStr.

Definition chr (n : nat) : string := String (ascii_of_nat n) EmptyString.
Definition nl : string := chr 10.
Definition dq : string := chr 34.

(** [s.find(sub)]: the first index of [sub] in [s], or -1. *)
Definition find (sub s : string) : Z :=
  match String.index 0 sub s with
  | Some n => Z.of_nat n
  | None => -1
  end.

(** A slice bound as Python resolves it: a negative bound counts from
    the end, and the result is clamped to [0, len]. *)
Definition clamp (len i : Z) : Z :=
  if i <? 0 then Z.max (i + len) 0 else Z.min i len.

(** [s[start:stop]] *)
Definition slice (s : string) (start stop : Z) : string :=
  let len := Z.of_nat (String.length s) in
  let lo := clamp len start in
  let hi := clamp len stop in
  if lo <? hi then String.substring (Z.to_nat lo) (Z.to_nat (hi - lo)) s
  else EmptyString.

(** A [string] stands for a Python [str] whose characters are the code
    points below 256, one [ascii] each, so that [String.length] is [len].
    [isspace] is [str.isspace] on one character: among these code points
    Python counts as white space 9 to 13, 28 to 32, 133 (U+0085, next
    line) and 160 (U+00A0, no-break space). *)
Definition isspace (c : ascii) : bool :=
  let n := nat_of_ascii c in
  ((9 <=? n) && (n <=? 13) || (28 <=? n) && (n <=? 32)
   || (n =? 133) || (n =? 160))%nat.

Fixpoint lstrip (s : string) : string :=
  match s with
  | EmptyString => EmptyString
  | String c rest => if isspace c then lstrip rest else s
  end.

Fixpoint rstrip (s : string) : string :=
  match s with
  | EmptyString => EmptyString
  | String c rest =>
      match rstrip rest with
      | EmptyString => if isspace c then EmptyString else String c EmptyString
      | kept => String c kept
      end
  end.

(** [s.strip()] *)
Definition strip (s : string) : string := rstrip (lstrip s).

(** [s.split(',')]: never empty. *)
Fixpoint split_comma (s : string) : list string :=
  match s with
  | EmptyString => [EmptyString]
  | String c rest =>
      if Ascii.eqb c ","%char then EmptyString :: split_comma rest
      else match split_comma rest with
           | [] => [String c EmptyString]
           | piece :: pieces => String c piece :: pieces
           end
  end.

(** [sep.join(pieces)] *)
Definition join (sep : string) (pieces : list string) : string :=
  String.concat sep pieces.

(** The truth value of a string in a condition. *)
Definition truthy (s : string) : bool :=
  match s with EmptyString => false | _ => true end.

End PyStr.

(* ------------------------------------------------------------------ *)
(** ** Exceptions inside the loops over raw records *)

Inductive exception :=
| KeyError (key : string)
| ValueError (what : string).

(** A computation that returns a value or raises. *)
Inductive raising (A : Type) :=
| Value (a : A)
| Raise (e : exception).
Arguments Value {A} a.
Arguments Raise {A} e.

Definition bind {A B} (c : raising A) (k : A -> raising B) : raising B :=
  match c with
  | Value a => k a
  | Raise e => Raise e
  end.

Notation "x <- c ;; k" := (bind c (fun x => k))
  (at level 61, c at next level, right associativity).

(** [d[key]] on a dict that may lack the key. *)
Definition item {A} (key : string) (field : option A) : raising A :=
  match field with
  | Some a => Value a
  | None => Raise (KeyError key)
  end.

(** [d.get(key, default)] *)
Definition get {A} (field : option A) (default : A) : A :=
  match field with
  | Some a => a
  | None => default
  end.

(** One iteration of a loop over raw records, whose body is

      try: ... all_articles.append(...)  except Exception: continue

    The body returns [Value (Some a)] when it appends [a],
    [Value None] when it leaves by [continue], and raises otherwise; the
    handler turns the exception into [continue]. *)
Fixpoint for_each_paper {R} (body : nat -> R -> raising (option article))
    (index : nat) (papers : list R) (all_articles : list article) : list article :=
  match papers with
  | [] => all_articles
  | paper :: rest =>
      match body index paper with
      | Value (Some appended) =>
          for_each_paper body (S index) rest (all_articles ++ [appended])
      | Value None => for_each_paper body (S index) rest all_articles
      | Raise _ => for_each_paper body (S index) rest all_articles
      end
  end.

(* ------------------------------------------------------------------ *)
(** ** Raw records *)

(** An element of [paper['PubmedData']['History']]. [Entrez.read] turns
    [<PubMedPubDate PubStatus=...>] into a dict whose keys are the child
    elements [Year], [Month] and [Day] and which carries the XML
    attribute in [.attributes], where the loop also reads the [IdType]
    of an article id. A [DateDict] has the attribute [status_attribute]
    ([date.attributes['PubStatus']]) apart from its keys; [PubStatus] is
    the key of that name, [None] when the dict has no such key. *)
Inductive history_item :=
| NotADict
| DateDict (status_attribute : option string)
    (PubStatus Year Month Day : option string).

Record pubmed_author := mkPubmedAuthor {
  LastName : option string;
  Initials : option string
}.

(** An element of [ArticleIdList]: a string with an [IdType] attribute. *)
Record article_id := mkArticleId {
  IdType : option string;
  id_text : string
}.

(** An element of [pubmed_papers['PubmedArticle']]. [History] is [None]
    when [PubmedData] or its [History] is absent. *)
Record pubmed_paper := mkPubmedPaper {
  History : option (list history_item);
  ArticleTitle : option string;
  AuthorList : list pubmed_author;
  JournalTitle : option string;
  PMID : option string;
  ArticleIdList : list article_id
}.

(** An element of [preprint_results['collection']]. *)
Record preprint_paper := mkPreprintPaper {
  pp_date : option string;
  pp_title : option string;
  pp_authors : list (option string);
  pp_server : option string;
  pp_doi : option string
}.

(** An element of [researchsquare_results['result']['data']]. *)
Record researchsquare_paper := mkResearchsquarePaper {
  rs_posted_at : option string;
  rs_title : option string;
  rs_authors : option string;
  rs_article_identity : option string;
  rs_doi_version : option string
}.

(** What one call of [search_articles] receives from outside: the three
    payloads and the readings of the clock. *)
Record observation := mkObservation {
  pubmed_papers : list pubmed_paper;
  preprint_results : list preprint_paper;
  researchsquare_results : list researchsquare_paper;
  current_date : datetime;
  researchsquare_now : nat -> datetime;
  filter_now : datetime
}.

(* ------------------------------------------------------------------ *)
(** ** Merging the articles of several queries *)

(** [seen_titles]: a dict from title to stored article. A Python dict
    keeps its keys in the order of their first insertion, and
    [values()] follows that order. *)
Definition seen_titles := list (string * merged_article).

(** [title in seen_titles], with the stored article *)
Fixpoint lookup (title : string) (seen : seen_titles) : option merged_article :=
  match seen with
  | [] => None
  | (key, entry) :: rest =>
      if String.eqb key title then Some entry else lookup title rest
  end.

(** [seen_titles[title]['queries'].append(query)] *)
Fixpoint append_query (title query : string) (seen : seen_titles) : seen_titles :=
  match seen with
  | [] => []
  | (key, entry) :: rest =>
      if String.eqb key title
      then (key, mkMerged (stored entry) (queries entry ++ [query])) :: rest
      else (key, entry) :: append_query title query rest
  end.

(** The title as the merge reads it back from the rendered fragment. *)
Definition extract_title (html : string) : string :=
  let title_start := PyStr.find "<h3>" html + 4 in
  let title_end := PyStr.find "</h3>" html in
  PyStr.strip (PyStr.slice html title_start title_end).

(** The body of the inner loop of [combine_and_display_results]. *)
Definition merge_result (query : string) (seen : seen_titles) (result : article)
    : seen_titles :=
  let title := extract_title (html result) in
  match lookup title seen with
  | Some _ => append_query title query seen
  | None => (seen ++ [(title, mkMerged result [query])])%list
  end.

(** [list(seen_titles.values())] *)
Definition values (seen : seen_titles) : list merged_article := map snd seen.

(** [all_results.sort(key=lambda x: x['date'], reverse=True)]. Python
    specifies its sort as stable, also with [reverse=True]: elements with
    equal keys keep their order. The result of such a sort is determined
    by the input (see [stable_sort_unique]); it is computed here by
    stable insertion. *)
Fixpoint insert_by_date (x : merged_article) (sorted : list merged_article)
    : list merged_article :=
  match sorted with
  | [] => [x]
  | y :: rest =>
      if date (stored y) <=? date (stored x) then x :: y :: rest
      else y :: insert_by_date x rest
  end.

Definition sort_by_date_reverse (all_results : list merged_article)
    : list merged_article :=
  fold_right insert_by_date [] all_results.

(** The title under which the merge files a result. *)
Definition title_of (result : article) : string := extract_title (html result).

Definition has_title (title : string) (result : article) : bool :=
  String.eqb (title_of result) title.

(** The results in the order in which the two nested loops visit them,
    each with the query of its outer iteration. *)
Definition stream := list (string * article).

(** The merge of a stream into [seen]: both loops as one. *)
Definition merge_stream (results : stream) (seen : seen_titles) : seen_titles :=
  fold_left (fun seen visit => merge_result (fst visit) seen (snd visit)) results seen.

(** The visits of a stream that show a given title, in order. *)
Definition sightings (title : string) (results : stream) : stream :=
  filter (fun visit => has_title title (snd visit)) results.

(** What the merge has filed under a title after a stream: nothing when
    the title was never seen, else the first result that showed it, with
    the queries of all its sightings in order. *)
Definition filed (title : string) (results : stream) : option merged_article :=
  match sightings title results with
  | [] => None
  | (first_query, first_result) :: later =>
      Some (mkMerged first_result (first_query :: map fst later))
  end.

(** The invariant of [seen_titles]: no key twice, and every article
    stored under the title its fragment shows. *)
Definition well_keyed (seen : seen_titles) : Prop :=
  NoDup (map fst seen)
  /\ Forall (fun entry => title_of (stored (snd entry)) = fst entry) seen.

(** The titles of a stream, each once, in the order in which the stream
    first shows them. *)
Definition first_seen_titles (results : stream) : list string :=
  fold_left
    (fun titles visit =>
       if existsb (String.eqb (title_of (snd visit))) titles then titles
       else (titles ++ [title_of (snd visit)])%list)
    results [].

(** The order of the sorted list: the earlier element is not older. *)
Definition not_older (a b : merged_article) : Prop :=
  date (stored b) <= date (stored a).

Definition dated (d : datetime) (a : merged_article) : bool :=
  date (stored a) =? d.

(* ------------------------------------------------------------------ *)
(** ** The search for one query *)

Section Pipeline.

(** Python's library, as far as the code calls it:
    [datetime.strptime(text, format)] ([None] for [ValueError]),
    [dt.strftime(format)], [int(text)] ([None] for [ValueError]) and
    [datetime(year, month, day)] ([None] for [ValueError]). *)
Variable strptime : string -> string -> option datetime.
Variable strftime : datetime -> string -> string.
Variable py_int : string -> option Z.
Variable datetime_ymd : Z -> Z -> Z -> option datetime.

Definition parse (text format : string) : raising datetime :=
  match strptime text format with
  | Some dt => Value dt
  | None => Raise (ValueError "time data does not match format")
  end.

Definition to_int (text : string) : raising Z :=
  match py_int text with
  | Some n => Value n
  | None => Raise (ValueError "invalid literal for int()")
  end.

Definition make_datetime (year month day : Z) : raising datetime :=
  match datetime_ymd year month day with
  | Some dt => Value dt
  | None => Raise (ValueError "date out of range")
  end.

(** [datetime(int(date['Year']), int(date['Month']), int(date['Day']))] *)
Definition history_datetime (Year Month Day : option string) : raising datetime :=
  y <- item "Year" Year ;; year <- to_int y ;;
  m <- item "Month" Month ;; month <- to_int m ;;
  d <- item "Day" Day ;; day <- to_int d ;;
  make_datetime year month day.

(** ['PubStatus' in date and date['PubStatus'] == 'pubmed'] *)
Definition is_pubmed_status (PubStatus : option string) : bool :=
  match PubStatus with
  | Some status => String.eqb status "pubmed"
  | None => false
  end.

(** The first loop over the history: the date of the first dict whose
    key ['PubStatus'] holds [pubmed], at which the loop breaks; [None]
    when the loop ends without one. The attributes are not read. *)
Fixpoint first_pubmed_date (dates : list history_item) : raising (option datetime) :=
  match dates with
  | [] => Value None
  | NotADict :: rest => first_pubmed_date rest
  | DateDict _ PubStatus Year Month Day :: rest =>
      if is_pubmed_status PubStatus then
        online_date <- history_datetime Year Month Day ;;
        Value (Some online_date)
      else first_pubmed_date rest
  end.

(** The generator handed to [max]: the dates of all dicts, in order. *)
Fixpoint history_datetimes (dates : list history_item) : raising (list datetime) :=
  match dates with
  | [] => Value []
  | NotADict :: rest => history_datetimes rest
  | DateDict _ _ Year Month Day :: rest =>
      dt <- history_datetime Year Month Day ;;
      dts <- history_datetimes rest ;;
      Value (dt :: dts)
  end.

(** [max] of a sequence; it raises on an empty one. *)
Definition py_max (dts : list datetime) : raising datetime :=
  match dts with
  | [] => Raise (ValueError "max() arg is an empty sequence")
  | dt :: rest => Value (fold_left Z.max rest dt)
  end.

(** The date taken from the history of a citation record. *)
Definition online_date_of (dates : list history_item) : raising datetime :=
  found <- first_pubmed_date dates ;;
  match found with
  | Some online_date => Value online_date
  | None => dts <- history_datetimes dates ;; py_max dts
  end.

Definition sp16 : string := "                ".
Definition sp20 : string := "                    ".

Definition div_open (color : string) : string :=
  (PyStr.nl ++ sp16 ++ "<div style=" ++ PyStr.dq
   ++ "margin-bottom: 20px; padding: 10px; background-color: " ++ color ++ ";"
   ++ PyStr.dq ++ ">" ++ PyStr.nl)%string.

Definition row (content : string) : string := (sp20 ++ content ++ PyStr.nl)%string.

Definition field (label value : string) : string :=
  row ("<p><strong>" ++ label ++ ":</strong> " ++ value ++ "</p>").

Definition div_close : string := (sp16 ++ "</div>" ++ PyStr.nl ++ sp16)%string.

Definition doi_link_of (doi : string) : string :=
  ("<a href=" ++ PyStr.dq ++ "https://doi.org/" ++ doi ++ PyStr.dq
   ++ " target=" ++ PyStr.dq ++ "_blank" ++ PyStr.dq ++ ">" ++ doi ++ "</a>")%string.

Definition et_al {A} (all : list A) (authors : string) : string :=
  if (3 <? List.length all)%nat then (authors ++ " et al.")%string else authors.

(** The body of the loop over [pubmed_papers['PubmedArticle']]. *)
Definition pubmed_body (query : string) (current_date max_future_date : datetime)
    (index : nat) (paper : pubmed_paper) : raising (option article) :=
  match History paper with
  | None => Value None
  | Some dates =>
      online_date <- online_date_of dates ;;
      if negb (is_valid_date current_date max_future_date online_date) then Value None
      else
        let color := get_pubmed_color current_date online_date in
        let title := get (ArticleTitle paper) "No Title Available" in
        let authors :=
          PyStr.join ", "
            (map (fun author =>
                    (get (LastName author) EmptyString ++ " "
                     ++ get (Initials author) EmptyString)%string)
                 (firstn 3 (AuthorList paper))) in
        let authors := et_al (AuthorList paper) authors in
        let journal := get (JournalTitle paper) "Unknown Journal" in
        let pmid := get (PMID paper) "Unknown PMID" in
        let doi :=
          find (fun id_obj =>
                  match IdType id_obj with
                  | Some t => String.eqb t "doi"
                  | None => false
                  end) (ArticleIdList paper) in
        let doi_link :=
          match doi with
          | Some id_obj =>
              if PyStr.truthy (id_text id_obj) then doi_link_of (id_text id_obj)
              else "Not available"
          | None => "Not available"
          end in
        let date_str := strftime online_date "%Y-%m-%d" in
        Value (Some {|
          date := online_date;
          color := color;
          html := (div_open color
                   ++ row ("<h3>" ++ title ++ "</h3>")
                   ++ field "Authors" authors
                   ++ field "Journal" journal
                   ++ field "Date" date_str
                   ++ field "PMID" pmid
                   ++ field "DOI" doi_link
                   ++ div_close)%string;
          query := query |})
  end.

(** The body of the loop over [preprint_results['collection']]. *)
Definition preprint_body (query : string) (current_date max_future_date : datetime)
    (index : nat) (paper : preprint_paper) : raising (option article) :=
  text <- item "date" (pp_date paper) ;;
  date_posted <- parse text "%Y-%m-%d" ;;
  if negb (is_valid_date current_date max_future_date date_posted) then Value None
  else
    let color := get_preprint_color current_date date_posted in
    let title := get (pp_title paper) "No Title Available" in
    let authors :=
      PyStr.join ", "
        (map (fun name => get name "Unknown Author") (firstn 3 (pp_authors paper))) in
    let authors := et_al (pp_authors paper) authors in
    let server := get (pp_server paper) "Unknown Server" in
    let doi := get (pp_doi paper) EmptyString in
    let doi_link := if PyStr.truthy doi then doi_link_of doi else "Not available" in
    let date_str := strftime date_posted "%Y-%m-%d" in
    Value (Some {|
      date := date_posted;
      color := color;
      html := (div_open color
               ++ row ("<h3>" ++ title ++ "</h3>")
               ++ field "Authors" authors
               ++ field "Server" server
               ++ field "Date" date_str
               ++ field "DOI" doi_link
               ++ div_close)%string;
      query := query |}).

(** The body of the loop over [researchsquare_results['result']['data']];
    the colour function reads the clock once for each record it colours. *)
Definition researchsquare_body (query : string) (current_date max_future_date : datetime)
    (now : nat -> datetime) (index : nat) (paper : researchsquare_paper)
    : raising (option article) :=
  text <- item "posted_at" (rs_posted_at paper) ;;
  date_posted <- parse text "%Y-%m-%d %H:%M:%S" ;;
  if negb (is_valid_date current_date max_future_date date_posted) then Value None
  else
    let color := get_researchsquare_color (now index) date_posted in
    let title := get (rs_title paper) "No Title Available" in
    let pieces := PyStr.split_comma (get (rs_authors paper) EmptyString) in
    let authors := PyStr.join ", " (map PyStr.strip (firstn 3 pieces)) in
    let authors := et_al pieces authors in
    let article_identity := get (rs_article_identity paper) EmptyString in
    let doi_version := get (rs_doi_version paper) "1" in
    let rs_link :=
      ("<a href=" ++ PyStr.dq ++ "https://www.researchsquare.com/article/"
       ++ article_identity ++ "/v" ++ doi_version ++ PyStr.dq
       ++ " target=" ++ PyStr.dq ++ "_blank" ++ PyStr.dq
       ++ ">ResearchSquare Link</a>")%string in
    let date_str := strftime date_posted "%Y-%m-%d" in
    Value (Some {|
      date := date_posted;
      color := color;
      html := (div_open color
               ++ row ("<h3>" ++ title ++ "</h3>")
               ++ field "Authors" authors
               ++ field "Server" "ResearchSquare"
               ++ field "Date" date_str
               ++ field "Link" rs_link
               ++ div_close)%string;
      query := query |}).

(** The three loops of [search_articles], each continuing the list
    [all_articles] of the one before. *)
Definition normalized_articles (query : string) (observed : observation)
    (max_future_months : Z) : list article :=
  let current_date := current_date observed in
  let max_future_date := max_future_date current_date max_future_months in
  let all_articles := [] in
  let all_articles :=
    for_each_paper (pubmed_body query current_date max_future_date)
      0 (pubmed_papers observed) all_articles in
  let all_articles :=
    for_each_paper (preprint_body query current_date max_future_date)
      0 (preprint_results observed) all_articles in
  let all_articles :=
    for_each_paper
      (researchsquare_body query current_date max_future_date (researchsquare_now observed))
      0 (researchsquare_results observed) all_articles in
  all_articles.

(** [if timeframe:] *)
Definition timeframe_given (timeframe : option string) : bool :=
  match timeframe with
  | Some tf => PyStr.truthy tf
  | None => false
  end.

(** [search_articles]; [observed] holds the payloads the four requests
    returned and the clock readings of this call. The arguments [page]
    and [results_per_page] only shape the requests. *)
Definition search_articles (query : string) (observed : observation)
    (timeframe : option string) (max_future_months : Z) : list article :=
  let all_articles := normalized_articles query observed max_future_months in
  if timeframe_given timeframe
  then filter_articles_by_timeframe (filter_now observed) all_articles timeframe
  else all_articles.

(** The outer loop of [combine_and_display_results]: [world index] is
    what the call of [search_articles] for the query at position
    [index] observes. *)
Fixpoint merge_queries (world : nat -> observation) (index : nat)
    (queries : list string) (timeframe : option string) (max_future_months : Z)
    (seen : seen_titles) : seen_titles :=
  match queries with
  | [] => seen
  | query :: rest =>
      let results := search_articles query (world index) timeframe max_future_months in
      merge_queries world (S index) rest timeframe max_future_months
        (fold_left (merge_result query) results seen)
  end.

(** [combine_and_display_results], up to the sorted list [all_results]
    that it renders. *)
Definition combine_and_display_results (world : nat -> observation)
    (queries : list string) (timeframe : option string) (max_future_months : Z)
    : list merged_article :=
  let seen := merge_queries world 0 queries timeframe max_future_months [] in
  let all_results := values seen in
  sort_by_date_reverse all_results.


(** The stream that [merge_queries] visits from the query at position
    [index] on. *)
Fixpoint results_stream (world : nat -> observation) (index : nat)
    (queries : list string) (timeframe : option string) (max_future_months : Z)
    : stream :=
  match queries with
  | [] => []
  | query :: rest =>
      (map (pair query) (search_articles query (world index) timeframe max_future_months)
       ++ results_stream world (S index) rest timeframe max_future_months)%list
  end.

End Pipeline.

(* ------------------------------------------------------------------ *)
(** ** What a loop over raw records does with each record *)

(** The three ways an iteration ends. *)
Definition appends {R} (body : nat -> R -> raising (option article))
    (index : nat) (paper : R) : bool :=
  match body index paper with Value (Some _) => true | _ => false end.

Definition continues {R} (body : nat -> R -> raising (option article))
    (index : nat) (paper : R) : bool :=
  match body index paper with Value None => true | _ => false end.

Definition raises {R} (body : nat -> R -> raising (option article))
    (index : nat) (paper : R) : bool :=
  match body index paper with Raise _ => true | _ => false end.

(** The number of records of a batch that pass a test, each taken at its
    position in the batch. *)
Fixpoint count_at {R} (test : nat -> R -> bool) (index : nat) (papers : list R) : nat :=
  match papers with
  | [] => 0%nat
  | paper :: rest =>
      ((if test index paper then 1 else 0) + count_at test (S index) rest)%nat
  end.

(** What the specification asks of a loop over a batch: no exception
    leaves it, every record ends in exactly one of the three ways,
    when a single record raises and no other is skipped one article
    fewer than records comes out, and after a record that raises the
    loop goes on with the next record and the articles it had. *)
Definition skips_only_what_fails {R} (body : nat -> R -> raising (option article)) : Prop :=
  forall papers : list R,
    let articles := for_each_paper body 0 papers [] in
    (List.length articles + count_at (raises body) 0 papers
     + count_at (continues body) 0 papers = List.length papers)%nat
    /\ (count_at (raises body) 0 papers = 1%nat ->
        count_at (continues body) 0 papers = 0%nat ->
        List.length articles = (List.length papers - 1)%nat)
    /\ (forall before bad after,
          papers = (before ++ bad :: after)%list ->
          raises body (List.length before) bad = true ->
          articles
          = for_each_paper body (S (List.length before)) after
              (for_each_paper body 0 before [])).

(** A history item whose status attribute is the given one:
    [date.attributes.get('PubStatus') == status]. *)
Definition tagged (status : string) (entry : history_item) : bool :=
  match entry with
  | DateDict (Some s) _ _ _ _ => String.eqb s status
  | _ => false
  end.

(** ['PubStatus' in date] is false: the item has no key of that name, as
    every element of a history that [Entrez.read] returns. *)
Definition without_status_key (entry : history_item) : bool :=
  match entry with
  | DateDict _ (Some _) _ _ _ => false
  | _ => true
  end.

(** The date of a history item, when its keys make one. *)
Definition date_of_entry (py_int : string -> option Z)
    (datetime_ymd : Z -> Z -> Z -> option datetime) (entry : history_item)
  : option datetime :=
  match entry with
  | NotADict => None
  | DateDict _ _ Year Month Day =>
      match history_datetime py_int datetime_ymd Year Month Day with
      | Value dt => Some dt
      | Raise _ => None
      end
  end.

(* ------------------------------------------------------------------ *)
(** ** Sample inputs *)

Module Samples.

(** A stand-in for the library on plain inputs: the proleptic Gregorian
    calendar with days counted from 1970-01-01, [int] on decimal digits,
    [strptime] on zero-padded texts of the two formats the code uses. *)
Definition days_from_civil (y m d : Z) : Z :=
  let y := if m <=? 2 then y - 1 else y in
  let era := y / 400 in
  let yoe := y - era * 400 in
  let doy := (153 * (if 2 <? m then m - 3 else m + 9) + 2) / 5 + d - 1 in
  let doe := yoe * 365 + yoe / 4 - yoe / 100 + doy in
  era * 146097 + doe - 719468.

Definition is_leap (y : Z) : bool :=
  ((y mod 4 =? 0) && negb (y mod 100 =? 0)) || (y mod 400 =? 0).

Definition days_in_month (y m : Z) : Z :=
  if m =? 2 then (if is_leap y then 29 else 28)
  else if (m =? 4) || (m =? 6) || (m =? 9) || (m =? 11) then 30
  else 31.

Definition datetime_ymd (y m d : Z) : option datetime :=
  if (1 <=? y) && (y <=? 9999) && (1 <=? m) && (m <=? 12)
     && (1 <=? d) && (d <=? days_in_month y m)
  then Some (midnight (days_from_civil y m d))
  else None.

Fixpoint digits (s : string) (acc : Z) : option Z :=
  match s with
  | EmptyString => Some acc
  | String c rest =>
      let n := nat_of_ascii c in
      if ((48 <=? n) && (n <=? 57))%nat
      then digits rest (acc * 10 + Z.of_nat (n - 48))
      else None
  end.

Definition py_int (s : string) : option Z :=
  match s with
  | EmptyString => None
  | _ => digits s 0
  end.

Definition number (s : string) (start len : nat) : option Z :=
  py_int (String.substring start len s).

Definition ymd_of (text : string) : option datetime :=
  match number text 0 4, number text 5 2, number text 8 2 with
  | Some y, Some m, Some d =>
      if String.eqb (String.substring 4 1 text) "-"
         && String.eqb (String.substring 7 1 text) "-"
      then datetime_ymd y m d
      else None
  | _, _, _ => None
  end.

Definition strptime (text format : string) : option datetime :=
  if String.eqb format "%Y-%m-%d" then
    if (String.length text =? 10)%nat then ymd_of text else None
  else if String.eqb format "%Y-%m-%d %H:%M:%S" then
    if (String.length text =? 19)%nat then
      match ymd_of text, number text 11 2, number text 14 2, number text 17 2 with
      | Some day, Some h, Some mi, Some s =>
          if (h <? 24) && (mi <? 60) && (s <? 60)
          then Some (day + ((h * 60 + mi) * 60 + s) * 1000000)
          else None
      | _, _, _, _ => None
      end
    else None
  else None.

Definition civil_from_days (days : Z) : Z * Z * Z :=
  let z := days + 719468 in
  let era := z / 146097 in
  let doe := z - era * 146097 in
  let yoe := (doe - doe / 1460 + doe / 36524 - doe / 146096) / 365 in
  let doy := doe - (365 * yoe + yoe / 4 - yoe / 100) in
  let mp := (5 * doy + 2) / 153 in
  let d := doy - (153 * mp + 2) / 5 + 1 in
  let m := if mp <? 10 then mp + 3 else mp - 9 in
  let y := yoe + era * 400 + (if m <=? 2 then 1 else 0) in
  (y, m, d).

Definition digit (n : Z) : string :=
  String (ascii_of_nat (48 + Z.to_nat (n mod 10))) EmptyString.

Definition pad2 (n : Z) : string := (digit (n / 10) ++ digit n)%string.

Definition pad4 (n : Z) : string := (pad2 (n / 100) ++ pad2 (n mod 100))%string.

(** [strftime] for the one format the code prints dates in. *)
Definition strftime (dt : datetime) (format : string) : string :=
  let '(y, m, d) := civil_from_days (date_of dt) in
  (pad4 y ++ "-" ++ pad2 m ++ "-" ++ pad2 d)%string.

(** The clock: noon of 1 June 2024. *)
Definition now : datetime :=
  midnight (days_from_civil 2024 6 1) + 12 * 3600 * 1000000.

(** An article dated at the given datetime; the other keys are fixed. *)
Definition article_dated (dt : datetime) : article :=
  mkArticle dt "#98FB98" "<h3>A title</h3>" "covid".

(** An article dated the day after [now]. *)
Definition tomorrow_article : article :=
  article_dated (midnight (days_from_civil 2024 6 2)).

(** Preprint records: a recent one, one whose date does not parse, and
    a well-formed one that is ten years old. *)
Definition recent_preprint : preprint_paper :=
  mkPreprintPaper (Some "2024-05-30") (Some "Long covid outcomes")
    [Some "A. Author"] (Some "medrxiv") (Some "10.1101/1").

Definition another_preprint : preprint_paper :=
  mkPreprintPaper (Some "2024-05-02") (Some "Vaccine response")
    [Some "B. Author"; None] (Some "biorxiv") None.

Definition unparseable_preprint : preprint_paper :=
  mkPreprintPaper (Some "30 May 2024") (Some "Undated") [] None None.

Definition old_preprint : preprint_paper :=
  mkPreprintPaper (Some "2014-05-30") (Some "An old result") [] None None.

(** A parsed history element: the status is an attribute, the keys are
    [Year], [Month] and [Day]. *)
Definition PubMedPubDate (status Year Month Day : string) : history_item :=
  DateDict (Some status) None (Some Year) (Some Month) (Some Day).

(** A parsed history with an item whose status is [published] and a
    later item. *)
Definition published_then_received : list history_item :=
  [ PubMedPubDate "published" "2024" "01" "10";
    PubMedPubDate "received" "2024" "02" "20" ].

(** A parsed history whose item of status [pubmed] is not the latest. *)
Definition pubmed_not_latest : list history_item :=
  [ PubMedPubDate "received" "2024" "04" "20";
    PubMedPubDate "pubmed" "2024" "05" "03";
    PubMedPubDate "medline" "2024" "05" "28" ].

(** A citation record with that history. *)
Definition parsed_citation : pubmed_paper :=
  mkPubmedPaper (Some pubmed_not_latest) (Some "Post-viral fatigue")
    [mkPubmedAuthor (Some "Author") (Some "A")] (Some "A Journal")
    (Some "38000001") [mkArticleId (Some "doi") "10.1000/1"].

(** A preprint-server record with the title of [recent_preprint], posted
    a day later. *)
Definition same_title_later : researchsquare_paper :=
  mkResearchsquarePaper (Some "2024-05-31 08:00:00") (Some "Long covid outcomes")
    (Some "A. Author, C. Author") (Some "rs-1") None.

Definition nothing : observation :=
  mkObservation [] [] [] now (fun _ => now) now.

(** What the calls of [search_articles] observe: the first call two
    preprints, the second a preprint-server record, later calls nothing. *)
Definition world (index : nat) : observation :=
  match index with
  | 0%nat => mkObservation [] [recent_preprint; another_preprint] [] now (fun _ => now) now
  | 1%nat => mkObservation [] [] [same_title_later] now (fun _ => now) now
  | _ => nothing
  end.

Definition two_queries : list string := ["covid"; "long covid"].

Definition combined : list merged_article :=
  combine_and_display_results strptime strftime py_int datetime_ymd
    world two_queries None 6.

(** The first article of [combined]. *)
Definition first_combined : merged_article :=
  nth 0 combined (mkMerged (article_dated 0) []).

(** A preprint whose title contains a closing tag. *)
Definition tagged_title_preprint : preprint_paper :=
  mkPreprintPaper (Some "2024-05-29") (Some "  Dose </h3> response ")
    [] None None.

(** Two preprints whose titles differ by a final no-break space
    (U+00A0), and what two calls of [search_articles] observe when each
    returns one of them. *)
Definition nbsp_title_preprint : preprint_paper :=
  mkPreprintPaper (Some "2024-05-29") (Some ("Dose response" ++ PyStr.chr 160))
    [] None None.

Definition plain_title_preprint : preprint_paper :=
  mkPreprintPaper (Some "2024-05-28") (Some "Dose response") [] None None.

Definition nbsp_world (index : nat) : observation :=
  match index with
  | 0%nat => mkObservation [] [nbsp_title_preprint] [] now (fun _ => now) now
  | 1%nat => mkObservation [] [plain_title_preprint] [] now (fun _ => now) now
  | _ => nothing
  end.

End Samples.

(* ------------------------------------------------------------------ *)
(** ** The title inside a rendered fragment *)

(** The nine hues of the three source tables. *)
Definition source_hues : list string :=
  [ "#2E8B57"; "#DAA520"; "#B22222";
    "#98FB98"; "#FAFAD2"; "#FFA07A";
    "#8FBC8F"; "#DEB887"; "#CD5C5C" ].

(** A fragment up to and including its [<h3>] tag. *)
Definition fragment_head (color : string) : string :=
  (div_open color ++ sp20 ++ "<h3>")%string.

(** The part of a title that stands before its first [</h3>]: the whole
    title when it has none. *)
Definition before_close (title : string) : string :=
  match String.index 0 "</h3>" title with
  | Some k => String.substring 0 k title
  | None => title
  end.

(** The titles the three loops render. *)
Definition pubmed_title (paper : pubmed_paper) : string :=
  get (ArticleTitle paper) "No Title Available".

Definition preprint_title (paper : preprint_paper) : string :=
  get (pp_title paper) "No Title Available".

Definition researchsquare_title (paper : researchsquare_paper) : string :=
  get (rs_title paper) "No Title Available".

(** [pattern] cannot start at the head of [s], whatever follows [s]: the
    two differ at a position inside [s]. *)
Fixpoint differs (pattern s : string) : bool :=
  match pattern, s with
  | String a pattern', String b s' =>
      if Ascii.eqb a b then differs pattern' s' else true
  | _, _ => false
  end.

(** [pattern] cannot start anywhere in [s], whatever follows [s]. *)
Fixpoint nowhere (pattern s : string) : bool :=
  match s with
  | EmptyString => true
  | String _ s' => differs pattern s && nowhere pattern s'
  end.

(* ------------------------------------------------------------------ *)
(** ** Time spent waiting between attempts *)

(** The seconds a run sleeps in all. *)
Definition total_sleep (evs : list Retry.event) : Z :=
  fold_right Z.add 0 (Retry.sleeps evs).

(** A service that answers every attempt with status 500. *)
Definition always_unavailable (attempt : nat) : Retry.outcome Z :=
  Retry.HTTPError 500.

(* ------------------------------------------------------------------ *)
(** ** Colour tables by elapsed time *)

(** A table with thresholds of [lo] and [hi] whole days, read on the
    time elapsed: the first hue for less than [lo + 1] days, the second
    for less than [hi + 1] days, the third from then on. *)
Definition hue_by_elapsed (table : datetime -> datetime -> string)
    (lo hi : Z) (recent moderate stale : string) : Prop :=
  forall now d : datetime,
    (table now d = recent <-> now - d < timedelta_days (lo + 1))
    /\ (table now d = moderate
        <-> timedelta_days (lo + 1) <= now - d < timedelta_days (hi + 1))
    /\ (table now d = stale <-> timedelta_days (hi + 1) <= now - d).

(** The articles of one source, as [search_articles] collects them. *)
Definition collected {R} (body : nat -> R -> raising (option article))
    (papers : list R) : list article :=
  for_each_paper body 0 papers [].

(* ------------------------------------------------------------------ *)
(** ** Counting what the merge holds *)

(** The number of queries recorded over all articles of a list. *)
Definition total_queries (articles : list merged_article) : nat :=
  list_sum (map (fun a => List.length (queries a)) articles).

(* ------------------------------------------------------------------ *)
(** ** Pages of results *)

(** [(page - 1) * results_per_page]: [start] in [search_pubmed] and
    [search_preprints], the [offset] of [search_researchsquare]. *)
Definition start_of_page (page results_per_page : Z) : Z :=
  (page - 1) * results_per_page.

(** The parameters of [search_pubmed] that vary ([db], [sort] and
    [retmode] are constants). *)
Record esearch_params := mkEsearchParams {
  term : string;
  retmax : Z;
  retstart : Z
}.

Definition search_pubmed_params (query : string) (page results_per_page : Z)
    : esearch_params :=
  let start := start_of_page page results_per_page in
  {| term := query; retmax := results_per_page; retstart := start |}.

(** The request of [search_preprints]: the two numbers of the path and
    the [text] parameter. *)
Record preprint_request := mkPreprintRequest {
  path_start : Z;
  path_count : Z;
  text_param : string
}.

Definition search_preprints_request (query : string) (page results_per_page : Z)
    : preprint_request :=
  let start := start_of_page page results_per_page in
  {| path_start := start; path_count := results_per_page; text_param := query |}.

(** The parameters of [search_researchsquare]; [now_end] and [now_start]
    are the two readings of the clock, [strftime] formats the days. *)
Record researchsquare_params := mkResearchsquareParams {
  unified : string;
  limit : Z;
  offset : Z;
  postedAfter : string;
  postedBefore : string
}.

Definition search_researchsquare_params (strftime : datetime -> string -> string)
    (now_end now_start : datetime)
    (query : string) (page results_per_page : Z) (timeframe : option string)
    : researchsquare_params :=
  let end_date := strftime (now_end + timedelta_days 1) "%Y-%m-%d" in
  let start_date := strftime (now_start - timedelta_days 30) "%Y-%m-%d" in
  {| unified := query;
     limit := results_per_page;
     offset := start_of_page page results_per_page;
     postedAfter := start_date;
     postedBefore := end_date |}.

(* ------------------------------------------------------------------ *)
(** ** Author lists *)

(** [format_author], the inner function of [format_author_list]. *)
Definition format_author (author : pubmed_author) : string :=
  let last_name := get (LastName author) EmptyString in
  let initials := get (Initials author) EmptyString in
  if PyStr.truthy last_name && PyStr.truthy initials
  then (last_name ++ " " ++ initials)%string
  else if PyStr.truthy last_name then last_name
  else if PyStr.truthy initials then initials
  else "Unknown Author".

(** [format_author_list] *)
Definition format_author_list (authors : list pubmed_author) : string :=
  if (5 <? List.length authors)%nat
  then (PyStr.join ", " (map format_author (firstn 5 authors)) ++ ", et al.")%string
  else PyStr.join ", " (map format_author authors).

(* ------------------------------------------------------------------ *)
(** ** Queries that match a text *)

(** [sub in s] on strings. *)
Fixpoint contains (sub s : string) : bool :=
  String.prefix sub s
  || match s with
     | EmptyString => false
     | String _ rest => contains sub rest
     end.

(** [get_matching_queries]; [lower] is [str.lower]. *)
Definition get_matching_queries (lower : string -> string)
    (text : string) (queries : list string) : list string :=
  filter (fun q => contains (lower q) (lower text)) queries.

(* ================================================================== *)
(** * Properties *)

(** ** Days and calendar dates *)

Lemma us_per_day_pos : 0 < us_per_day.
Proof. reflexivity. Qed.

Lemma days_le_iff (delta k : Z) :
  days delta <= k <-> delta < (k + 1) * us_per_day.
Proof.
  unfold days, us_per_day.
  split; intro H; Z.div_mod_to_equations; lia.
Qed.

Lemma days_timedelta_days (n : Z) : days (timedelta_days n) = n.
Proof.
  unfold days, timedelta_days.
  apply Z.div_mul. discriminate.
Qed.

Lemma date_of_midnight (d : calendar_date) : date_of (midnight d) = d.
Proof.
  unfold date_of, midnight.
  apply Z.div_mul. discriminate.
Qed.

Lemma date_of_ge_iff (start : calendar_date) (dt : datetime) :
  start <= date_of dt <-> midnight start <= dt.
Proof.
  unfold date_of, midnight, us_per_day.
  split; intro H; Z.div_mod_to_equations; lia.
Qed.

Lemma date_of_leb (start : calendar_date) (dt : datetime) :
  (start <=? date_of dt) = (midnight start <=? dt).
Proof.
  destruct (Z.leb_spec start (date_of dt)) as [H | H];
    destruct (Z.leb_spec (midnight start) dt) as [H' | H'];
    try reflexivity; exfalso.
  - apply date_of_ge_iff in H. lia.
  - apply date_of_ge_iff in H'. lia.
Qed.

(** ** The colour tables *)

Section ColorTables.

(** A table with two day thresholds: the first hue up to and including
    [lo] days, the second up to and including [hi] days, the third
    beyond. *)
Variable table : datetime -> datetime -> string.
Variables lo hi : Z.
Variables recent moderate stale : string.
Hypothesis table_eq : forall now d,
  table now d =
    if days (now - d) <=? lo then recent
    else if days (now - d) <=? hi then moderate
    else stale.
Hypothesis lo_le_hi : lo <= hi.

Lemma table_recent now d : days (now - d) <= lo -> table now d = recent.
Proof.
  intro H. rewrite table_eq.
  apply Z.leb_le in H. now rewrite H.
Qed.

Lemma table_moderate now d :
  lo < days (now - d) <= hi -> table now d = moderate.
Proof.
  intros [H1 H2]. rewrite table_eq.
  apply Z.leb_gt in H1. apply Z.leb_le in H2.
  now rewrite H1, H2.
Qed.

Lemma table_stale now d : hi < days (now - d) -> table now d = stale.
Proof.
  intro H. rewrite table_eq.
  assert (H1 : (days (now - d) <=? lo) = false) by (apply Z.leb_gt; lia).
  apply Z.leb_gt in H.
  now rewrite H1, H.
Qed.

Lemma table_at_lo now : table now (now - timedelta_days lo) = recent.
Proof.
  apply table_recent.
  replace (now - (now - timedelta_days lo)) with (timedelta_days lo) by lia.
  rewrite days_timedelta_days. lia.
Qed.

Lemma table_at_hi now : lo < hi -> table now (now - timedelta_days hi) = moderate.
Proof.
  intro H. apply table_moderate.
  replace (now - (now - timedelta_days hi)) with (timedelta_days hi) by lia.
  rewrite days_timedelta_days. lia.
Qed.

End ColorTables.

Lemma inclusive_table_intro table lo hi recent moderate stale :
  lo < hi ->
  (forall now d,
     table now d =
       if days (now - d) <=? lo then recent
       else if days (now - d) <=? hi then moderate
       else stale) ->
  inclusive_table table lo hi recent moderate stale.
Proof.
  intros Hlt Heq now d.
  assert (Hle : lo <= hi) by lia.
  repeat split.
  - eapply table_recent; eauto.
  - eapply table_moderate; eauto.
  - eapply table_stale; eauto.
  - eapply table_at_lo; eauto.
  - eapply table_at_hi; eauto.
Qed.

(** C8. In every colour table the day thresholds are inclusive. The
    tables of the citation source ([get_pubmed_color]), the preprint
    aggregator ([get_preprint_color]) and the preprint server
    ([get_researchsquare_color]) give the recent hue up to and including
    7 whole days, the middle hue up to and including 30, the stale hue
    beyond; a date exactly 7 days before now gets the recent hue. The
    generic helper [get_color_by_date] has the thresholds 3 and 7. *)
Theorem color_thresholds_inclusive :
  inclusive_table get_pubmed_color 7 30 "#2E8B57" "#DAA520" "#B22222"
  /\ inclusive_table get_preprint_color 7 30 "#98FB98" "#FAFAD2" "#FFA07A"
  /\ inclusive_table get_researchsquare_color 7 30 "#8FBC8F" "#DEB887" "#CD5C5C"
  /\ inclusive_table (fun now d => get_color_by_date now (Some d)) 3 7 GREEN YELLOW RED
  /\ (forall now, get_color_by_date now None = RED).
Proof.
  split; [|split; [|split; [|split]]].
  - apply inclusive_table_intro; [lia | reflexivity].
  - apply inclusive_table_intro; [lia | reflexivity].
  - apply inclusive_table_intro; [lia | reflexivity].
  - apply inclusive_table_intro; [lia | reflexivity].
  - reflexivity.
Qed.

(** ** The validity window *)

Lemma is_valid_date_iff (d now : datetime) (m : Z) :
  is_valid_date now (max_future_date now m) d = true
  <-> now - timedelta_days (5 * 365) <= d <= now + timedelta_days (m * 30).
Proof.
  unfold is_valid_date, max_future_date.
  rewrite andb_true_iff, !Z.leb_le.
  unfold timedelta_days. lia.
Qed.

(** C4. The validity predicate of [search_articles] holds exactly for the
    dates between now minus 365*5 days (the five years of the code) and
    now plus 30 days for each of the [max_future_months], both ends
    included; one microsecond outside either end it fails. *)
Theorem is_valid_date_window :
  forall (d now : datetime) (m : Z),
    let valid := is_valid_date now (max_future_date now m) in
    let earliest := now - timedelta_days (5 * 365) in
    let latest := now + timedelta_days (m * 30) in
    (valid d = true <-> earliest <= d <= latest)
    /\ (earliest <= latest -> valid earliest = true /\ valid latest = true)
    /\ valid (earliest - 1) = false
    /\ valid (latest + 1) = false.
Proof.
  intros d now m valid earliest latest.
  assert (Hiff : forall x, valid x = true <-> earliest <= x <= latest).
  { intro x. apply is_valid_date_iff. }
  assert (Hnot : forall x, ~ earliest <= x <= latest -> valid x = false).
  { intros x Hx. destruct (valid x) eqn:E; [|reflexivity].
    apply Hiff in E. contradiction. }
  split; [apply Hiff|].
  split; [intro Hle; split; apply Hiff; lia|].
  split; apply Hnot; lia.
Qed.

(** A run of C4: with the default of six months the window is not
    empty, and both of its ends are valid dates. *)
Lemma is_valid_date_window_witness :
  is_valid_date Samples.now (max_future_date Samples.now 6)
    (Samples.now - timedelta_days (5 * 365)) = true
  /\ is_valid_date Samples.now (max_future_date Samples.now 6)
       (Samples.now + timedelta_days (6 * 30)) = true.
Proof.
  destruct (is_valid_date_window Samples.now Samples.now 6) as (_ & Hends & _).
  apply Hends. vm_compute. discriminate.
Defined.

(** ** The time frame filter *)

Lemma filter_since (start : calendar_date) (articles : list article) :
  filter (fun article => start <=? date_of (date article)) articles
  = filter (fun article => midnight start <=? date article) articles.
Proof.
  apply filter_ext. intro a. apply date_of_leb.
Qed.

Lemma start_date_of_other (today : calendar_date) (timeframe : option string) :
  timeframe <> Some "today" -> timeframe <> Some "week" ->
  timeframe <> Some "month" ->
  start_date_of today timeframe = None.
Proof.
  intros H1 H2 H3. destruct timeframe as [tf|]; [|reflexivity].
  simpl.
  destruct (String.eqb_spec tf "today") as [->|_]; [congruence|].
  destruct (String.eqb_spec tf "week") as [->|_]; [congruence|].
  destruct (String.eqb_spec tf "month") as [->|_]; [congruence|].
  reflexivity.
Qed.

(** C3, as the code has it. [filter_articles_by_timeframe] keeps, in
    their order, exactly the articles dated on or after a start day:
    today for ["today"] (so an article dated after today is kept too),
    today minus 7 days for ["week"], today minus 30 days for ["month"];
    with any other time frame, or none, it returns its input. *)
Theorem filter_articles_by_timeframe_since :
  forall (now : datetime) (articles : list article),
    let today := date_of now in
    let since start := filter (fun a => midnight start <=? date a) articles in
    filter_articles_by_timeframe now articles (Some "today") = since today
    /\ filter_articles_by_timeframe now articles (Some "week") = since (today - 7)
    /\ filter_articles_by_timeframe now articles (Some "month") = since (today - 30)
    /\ (forall a, In a (filter_articles_by_timeframe now articles (Some "today"))
                  <-> In a articles /\ today <= date_of (date a))
    /\ (forall timeframe,
          timeframe <> Some "today" -> timeframe <> Some "week" ->
          timeframe <> Some "month" ->
          filter_articles_by_timeframe now articles timeframe = articles).
Proof.
  intros now articles today since.
  unfold filter_articles_by_timeframe. fold today.
  split; [|split; [|split; [|split]]].
  - simpl. apply filter_since.
  - simpl. apply filter_since.
  - simpl. apply filter_since.
  - intro a. simpl. rewrite filter_In, Z.leb_le. reflexivity.
  - intros tf H1 H2 H3.
    now rewrite (start_date_of_other today tf H1 H2 H3).
Qed.

(** A run of C3: without a time frame the articles are returned as
    they are. *)
Lemma filter_articles_by_timeframe_since_witness :
  filter_articles_by_timeframe Samples.now [Samples.tomorrow_article] None
  = [Samples.tomorrow_article].
Proof.
  destruct (filter_articles_by_timeframe_since Samples.now [Samples.tomorrow_article])
    as (_ & _ & _ & _ & Hother).
  apply Hother; discriminate.
Defined.

(** C3, as stated, fails for ["today"]: an article dated tomorrow is kept
    although its calendar day is not today. *)
Lemma today_keeps_later_days :
  filter_articles_by_timeframe Samples.now [Samples.tomorrow_article] (Some "today")
    = [Samples.tomorrow_article]
  /\ date_of (date Samples.tomorrow_article) <> date_of Samples.now.
Proof.
  split.
  - reflexivity.
  - vm_compute. discriminate.
Qed.

(** ** Requests with retries *)

Module RetryProperties.
Import Retry.

Lemma backoff_schedule_tail (d : Z) (count : nat) :
  backoff_schedule d count = tail_schedule d 0 count.
Proof.
  unfold backoff_schedule, tail_schedule.
  destruct count as [|more]; reflexivity.
Qed.

Lemma attempts_made_tail (d : Z) (count first : nat) :
  attempts_made (tail_schedule d first count) = count.
Proof.
  unfold attempts_made, tail_schedule.
  destruct count as [|more]; [reflexivity|].
  simpl. f_equal.
  revert first. induction more as [|more IH]; intro i; simpl.
  - reflexivity.
  - now rewrite IH.
Qed.

Lemma sleeps_scheduled (d : Z) (more : nat) :
  forall first,
    sleeps (flat_map (scheduled d) (seq (S first) more))
    = map (fun j => d * 2 ^ Z.of_nat j) (seq first more).
Proof.
  induction more as [|more IH]; intro first; simpl.
  - reflexivity.
  - f_equal. apply IH.
Qed.

Lemma sleeps_tail (d : Z) (count : nat) :
  sleeps (tail_schedule d 0 count)
  = map (fun j => d * 2 ^ Z.of_nat j) (seq 0 (Nat.pred count)).
Proof.
  destruct count as [|more]; [reflexivity|].
  unfold tail_schedule. simpl Nat.pred.
  change (sleeps (Attempt 0 :: ?evs)) with (sleeps evs).
  apply sleeps_scheduled.
Qed.

Lemma pow2_succ (d : Z) (i : nat) :
  d * 2 ^ Z.of_nat i * 2 = d * 2 ^ Z.of_nat (S i).
Proof.
  rewrite Nat2Z.inj_succ, Z.pow_succ_r by lia. ring.
Qed.

(** The loop, started at index [attempt] with the delay the schedule
    gives that index, leaves a trace that follows the schedule; it makes
    at least one attempt when an iteration remains, and never more
    attempts than iterations remain. *)
Lemma attempts_from_schedule {R} (request : nat -> outcome R)
    (max_retries d : Z) (remaining : nat) :
  forall attempt,
    max_retries <= Z.of_nat attempt + Z.of_nat remaining ->
    exists count,
      (count <= remaining)%nat
      /\ (remaining <> O -> count <> O)
      /\ trace (attempts_from request max_retries remaining attempt
                  (d * 2 ^ Z.of_nat attempt))
         = tail_schedule d attempt count.
Proof.
  induction remaining as [|remaining IH]; intros attempt Hroom.
  - exists O. simpl. repeat split; auto.
  - simpl.
    destruct (request attempt) as [r | code | msg];
      try (exists 1%nat; simpl; repeat split; auto; lia).
    destruct ((code =? 500) && (Z.of_nat attempt <? max_retries - 1)) eqn:Hretry;
      [|exists 1%nat; simpl; repeat split; auto; lia].
    destruct (d * 2 ^ Z.of_nat attempt <? 0);
      [exists 1%nat; simpl; repeat split; auto; lia|].
    apply andb_true_iff in Hretry. destruct Hretry as [_ Hlt].
    apply Z.ltb_lt in Hlt.
    destruct (IH (S attempt)) as (count & Hle & Hpos & Htrace); [lia|].
    rewrite pow2_succ.
    change (trace (after ?evs ?r)) with (evs ++ trace r)%list.
    rewrite Htrace.
    exists (S count). split; [lia|]. split; [discriminate|].
    destruct count as [|more].
    + exfalso. apply Hpos; [lia | reflexivity].
    + reflexivity.
Qed.

(** The attempt that ends the loop decides the result: an answer is
    returned; a status other than 500, a 500 on the last iteration and
    any other exception are raised. *)
Lemma attempts_from_decides {R} (request : nat -> outcome R)
    (max_retries : Z) (remaining : nat) :
  forall attempt delay k,
    In (Attempt k) (trace (attempts_from request max_retries remaining attempt delay)) ->
    (forall r, request k = Returned r ->
       result (attempts_from request max_retries remaining attempt delay) = inl r)
    /\ (forall code, request k = HTTPError code ->
          code <> 500 \/ max_retries - 1 <= Z.of_nat k ->
          result (attempts_from request max_retries remaining attempt delay)
          = inr (RaisedHTTPError code))
    /\ (forall msg, request k = OtherError msg ->
          result (attempts_from request max_retries remaining attempt delay)
          = inr (RaisedOther msg)).
Proof.
  induction remaining as [|remaining IH]; intros attempt delay k Hin.
  - destruct Hin.
  - simpl in Hin |- *.
    destruct (request attempt) as [r | code | msg] eqn:Hreq.
    + destruct Hin as [[= <-] | []]. rewrite Hreq.
      split; [now intros r' [= <-] | split; discriminate].
    + destruct ((code =? 500) && (Z.of_nat attempt <? max_retries - 1)) eqn:Hretry.
      * apply andb_true_iff in Hretry. destruct Hretry as [H500 Hlt].
        apply Z.eqb_eq in H500. apply Z.ltb_lt in Hlt.
        assert (Hhere :
                (forall r, request attempt = Returned r -> False)
                /\ (forall c, request attempt = HTTPError c ->
                      c <> 500 \/ max_retries - 1 <= Z.of_nat attempt -> False)
                /\ (forall m, request attempt = OtherError m -> False)).
        { rewrite Hreq. split; [discriminate|]. split.
          - intros c [= <-] [Hc | Hc]; [contradiction | lia].
          - discriminate. }
        destruct Hhere as (Hret & Hhttp & Hother).
        destruct (delay <? 0).
        -- destruct Hin as [[= <-] | []].
           split; [|split]; intros; exfalso; eauto.
        -- simpl in Hin. destruct Hin as [[= <-] | [Hin | Hin]].
           ++ split; [|split]; intros; exfalso; eauto.
           ++ discriminate.
           ++ apply (IH _ _ _ Hin).
      * destruct Hin as [[= <-] | []]. rewrite Hreq.
        split; [discriminate|]. split.
        -- now intros c [= <-] _.
        -- discriminate.
    + destruct Hin as [[= <-] | []]. rewrite Hreq.
      split; [discriminate|]. split.
      * discriminate.
      * now intros m [= <-].
Qed.

(** C5. [search_pubmed] with [max_retries] iterations:
    - when the request fails twice with status 500 and then succeeds, the
      answer of the third attempt is returned (three iterations at least,
      a delay that [time.sleep] accepts), after sleeps of
      [initial_delay] and twice that;
    - the number of attempts is at most [max_retries];
    - the trace follows the backoff schedule: the sleep before the
      attempt of loop index [k] (the [k]-th retry) lasts
      [initial_delay * 2^(k-1)] seconds, so the sleeps are
      [initial_delay], twice that, four times that, and so on, one
      fewer than attempts;
    - whenever an attempt is made and succeeds, its answer is returned;
      a failure with another status, a 500 on the last iteration and any
      other exception are raised to the caller. *)
Theorem search_pubmed_retry_backoff :
  forall (R : Type) (request : nat -> outcome R) (max_retries initial_delay : Z),
    let run := search_pubmed request max_retries initial_delay in
    (forall r,
        3 <= max_retries -> 0 <= initial_delay ->
        request 0%nat = HTTPError 500 -> request 1%nat = HTTPError 500 ->
        request 2%nat = Returned r ->
        result run = inl r
        /\ trace run = [Attempt 0; Sleep initial_delay; Attempt 1;
                        Sleep (initial_delay * 2); Attempt 2])
    /\ (0 <= max_retries -> Z.of_nat (attempts_made (trace run)) <= max_retries)
    /\ trace run = backoff_schedule initial_delay (attempts_made (trace run))
    /\ sleeps (trace run)
       = map (fun j => initial_delay * 2 ^ Z.of_nat j)
           (seq 0 (Nat.pred (attempts_made (trace run))))
    /\ (forall k, In (Attempt k) (trace run) ->
          (forall r, request k = Returned r -> result run = inl r)
          /\ (forall code, request k = HTTPError code ->
                code <> 500 \/ max_retries - 1 <= Z.of_nat k ->
                result run = inr (RaisedHTTPError code))
          /\ (forall msg, request k = OtherError msg ->
                result run = inr (RaisedOther msg))).
Proof.
  intros R request max_retries initial_delay run.
  destruct (attempts_from_schedule request max_retries initial_delay
              (Z.to_nat max_retries) 0) as (count & Hle & _ & Htrace); [lia|].
  change (2 ^ Z.of_nat 0) with 1 in Htrace. rewrite Z.mul_1_r in Htrace.
  fold (search_pubmed request max_retries initial_delay) in Htrace.
  fold run in Htrace.
  split; [|split; [|split; [|split]]].
  - intros r Hthree Hdelay H0 H1 H2.
    unfold run, search_pubmed.
    destruct (Z.to_nat max_retries) as [|[|[|n]]] eqn:Hn; try lia.
    assert (Hlt0 : (0 <? max_retries - 1) = true) by (apply Z.ltb_lt; lia).
    assert (Hlt1 : (1 <? max_retries - 1) = true) by (apply Z.ltb_lt; lia).
    assert (Hd0 : (initial_delay <? 0) = false) by (apply Z.ltb_ge; lia).
    assert (Hd1 : (initial_delay * 2 <? 0) = false) by (apply Z.ltb_ge; lia).
    simpl. rewrite H0. simpl. rewrite Hlt0, Hd0.
    rewrite H1. simpl. rewrite Hlt1, Hd1.
    rewrite H2. split; reflexivity.
  - intro Hmr. rewrite Htrace, attempts_made_tail.
    apply Nat2Z.inj_le in Hle. now rewrite Z2Nat.id in Hle.
  - rewrite Htrace at 1. rewrite Htrace, attempts_made_tail.
    symmetry. apply backoff_schedule_tail.
  - rewrite Htrace, attempts_made_tail. apply sleeps_tail.
  - intros k Hin. apply attempts_from_decides. exact Hin.
Qed.

(** A run of C5: two failures with status 500, then the answer. *)
Lemma search_pubmed_retry_backoff_witness :
  result (search_pubmed twice_unavailable default_max_retries default_initial_delay)
    = inl 42
  /\ trace (search_pubmed twice_unavailable default_max_retries default_initial_delay)
     = [Attempt 0; Sleep 1; Attempt 1; Sleep 2; Attempt 2].
Proof.
  destruct (search_pubmed_retry_backoff Z twice_unavailable
              default_max_retries default_initial_delay) as [Hthird _].
  apply (Hthird 42).
  - unfold default_max_retries. lia.
  - unfold default_initial_delay. lia.
  - reflexivity.
  - reflexivity.
  - reflexivity.
Defined.

(** The same loop guards [fetch_pubmed_details]. *)
Lemma fetch_pubmed_details_same_policy {R} (request : nat -> outcome R)
    (max_retries initial_delay : Z) :
  fetch_pubmed_details request max_retries initial_delay
  = search_pubmed request max_retries initial_delay.
Proof. reflexivity. Qed.

(** With fewer than three iterations the second failure is final. *)
Lemma two_retries_do_not_reach_third_attempt :
  result (search_pubmed twice_unavailable 2 1) = inr (RaisedHTTPError 500).
Proof. reflexivity. Qed.

End RetryProperties.

(** ** Loops over raw records *)

Lemma for_each_paper_length {R} (body : nat -> R -> raising (option article))
    (papers : list R) :
  forall index all_articles,
    List.length (for_each_paper body index papers all_articles)
    = (List.length all_articles + count_at (appends body) index papers)%nat.
Proof.
  induction papers as [|paper rest IH]; intros index acc; simpl.
  - lia.
  - unfold appends at 1.
    destruct (body index paper) as [[a|]|e]; rewrite IH.
    + rewrite length_app. simpl. lia.
    + lia.
    + lia.
Qed.

Lemma for_each_paper_app {R} (body : nat -> R -> raising (option article))
    (papers : list R) :
  forall index all_articles,
    for_each_paper body index papers all_articles
    = (all_articles ++ for_each_paper body index papers [])%list.
Proof.
  induction papers as [|paper rest IH]; intros index acc; simpl.
  - now rewrite app_nil_r.
  - destruct (body index paper) as [[a|]|e]; auto.
    rewrite IH, (IH _ [a]). now rewrite <- app_assoc.
Qed.

Lemma count_at_partition {R} (body : nat -> R -> raising (option article))
    (papers : list R) :
  forall index,
    (count_at (appends body) index papers + count_at (raises body) index papers
     + count_at (continues body) index papers = List.length papers)%nat.
Proof.
  induction papers as [|paper rest IH]; intro index; simpl.
  - reflexivity.
  - specialize (IH (S index)).
    unfold appends at 1, raises at 1, continues at 1.
    destruct (body index paper) as [[a|]|e]; lia.
Qed.

Lemma for_each_paper_split {R} (body : nat -> R -> raising (option article))
    (before after : list R) :
  forall index all_articles,
    for_each_paper body index (before ++ after)%list all_articles
    = for_each_paper body (index + List.length before) after
        (for_each_paper body index before all_articles).
Proof.
  induction before as [|paper before IH]; intros index acc; simpl.
  - now rewrite Nat.add_0_r.
  - rewrite Nat.add_succ_r.
    destruct (body index paper) as [[a|]|e]; apply IH.
Qed.

Lemma skips_only_what_fails_any {R} (body : nat -> R -> raising (option article)) :
  skips_only_what_fails body.
Proof.
  intros papers articles.
  assert (Hlen : List.length articles = count_at (appends body) 0 papers).
  { unfold articles. now rewrite for_each_paper_length. }
  pose proof (count_at_partition body papers 0) as Hsum.
  split; [lia|]. split; [intros H1 H0; lia|].
  intros before bad after -> Hbad.
  unfold articles. rewrite for_each_paper_split. simpl.
  unfold raises in Hbad.
  now destruct (body (List.length before) bad) as [[a|]|e].
Qed.

(** Every article a loop adds comes from a record on which the body
    returned it. *)
Lemma for_each_paper_In {R} (body : nat -> R -> raising (option article))
    (papers : list R) (a : article) :
  forall index all_articles,
    In a (for_each_paper body index papers all_articles) ->
    In a all_articles
    \/ exists i paper, In paper papers /\ body i paper = Value (Some a).
Proof.
  induction papers as [|paper rest IH]; intros index acc Hin; simpl in Hin.
  - now left.
  - destruct (body index paper) as [[b|]|e] eqn:Hbody;
      apply IH in Hin; destruct Hin as [Hin | (i & p & Hp & Hb)];
      try (right; exists i, p; simpl; tauto);
      try (now left).
    apply in_app_or in Hin. destruct Hin as [Hin | [<- | []]].
    + now left.
    + right. exists index, paper. simpl. tauto.
Qed.

Section Normalizers.

Variable strptime : string -> string -> option datetime.
Variable strftime : datetime -> string -> string.
Variable py_int : string -> option Z.
Variable datetime_ymd : Z -> Z -> Z -> option datetime.

Variable query : string.
Variables current_date latest : datetime.
Variable now : nat -> datetime.

Let pubmed := pubmed_body strftime py_int datetime_ymd query current_date latest.
Let preprint := preprint_body strptime strftime query current_date latest.
Let researchsquare :=
  researchsquare_body strptime strftime query current_date latest now.
Let valid := is_valid_date current_date latest.

Lemma preprint_raises index paper :
  raises preprint index paper = true
  <-> pp_date paper = None
      \/ exists text, pp_date paper = Some text /\ strptime text "%Y-%m-%d" = None.
Proof.
  unfold raises, preprint, preprint_body, parse.
  destruct (pp_date paper) as [text|]; simpl.
  - destruct (strptime text "%Y-%m-%d") as [dt|] eqn:Hparse; simpl.
    + destruct (is_valid_date current_date latest dt); simpl;
        (split; [discriminate|]);
        intros [H | (t & [= <-] & H)]; congruence.
    + split; [|reflexivity]. intros _. right. now exists text.
  - split; [|reflexivity]. intros _. now left.
Qed.

Lemma preprint_continues index paper :
  continues preprint index paper = true
  <-> exists text dt, pp_date paper = Some text
        /\ strptime text "%Y-%m-%d" = Some dt /\ valid dt = false.
Proof.
  unfold continues, preprint, preprint_body, parse, valid.
  destruct (pp_date paper) as [text|]; simpl.
  - destruct (strptime text "%Y-%m-%d") as [dt|] eqn:Hparse; simpl.
    + destruct (is_valid_date current_date latest dt) eqn:Hvalid; simpl.
      * split; [discriminate|].
        intros (t & d & [= <-] & H1 & H2). congruence.
      * split; [|reflexivity]. intros _. now exists text, dt.
    + split; [discriminate|]. intros (t & d & [= <-] & H1 & _). congruence.
  - split; [discriminate|]. intros (t & d & H & _). discriminate.
Qed.

Lemma researchsquare_raises index paper :
  raises researchsquare index paper = true
  <-> rs_posted_at paper = None
      \/ exists text, rs_posted_at paper = Some text
           /\ strptime text "%Y-%m-%d %H:%M:%S" = None.
Proof.
  unfold raises, researchsquare, researchsquare_body, parse.
  destruct (rs_posted_at paper) as [text|]; simpl.
  - destruct (strptime text "%Y-%m-%d %H:%M:%S") as [dt|] eqn:Hparse; simpl.
    + destruct (is_valid_date current_date latest dt); simpl;
        (split; [discriminate|]);
        intros [H | (t & [= <-] & H)]; congruence.
    + split; [|reflexivity]. intros _. right. now exists text.
  - split; [|reflexivity]. intros _. now left.
Qed.

Lemma researchsquare_continues index paper :
  continues researchsquare index paper = true
  <-> exists text dt, rs_posted_at paper = Some text
        /\ strptime text "%Y-%m-%d %H:%M:%S" = Some dt /\ valid dt = false.
Proof.
  unfold continues, researchsquare, researchsquare_body, parse, valid.
  destruct (rs_posted_at paper) as [text|]; simpl.
  - destruct (strptime text "%Y-%m-%d %H:%M:%S") as [dt|] eqn:Hparse; simpl.
    + destruct (is_valid_date current_date latest dt) eqn:Hvalid; simpl.
      * split; [discriminate|].
        intros (t & d & [= <-] & H1 & H2). congruence.
      * split; [|reflexivity]. intros _. now exists text, dt.
    + split; [discriminate|]. intros (t & d & [= <-] & H1 & _). congruence.
  - split; [discriminate|]. intros (t & d & H & _). discriminate.
Qed.

Lemma pubmed_raises index paper :
  raises pubmed index paper = true
  <-> exists dates e, History paper = Some dates
        /\ online_date_of py_int datetime_ymd dates = Raise e.
Proof.
  unfold raises, pubmed, pubmed_body.
  destruct (History paper) as [dates|]; simpl.
  - destruct (online_date_of py_int datetime_ymd dates) as [dt|e] eqn:Hdate; simpl.
    + destruct (is_valid_date current_date latest dt); simpl;
        (split; [discriminate|]);
        intros (d & e & [= <-] & H); congruence.
    + split; [|reflexivity]. intros _. now exists dates, e.
  - split; [discriminate|]. intros (d & e & H & _). discriminate.
Qed.

Lemma pubmed_continues index paper :
  continues pubmed index paper = true
  <-> History paper = None
      \/ exists dates dt, History paper = Some dates
           /\ online_date_of py_int datetime_ymd dates = Value dt
           /\ valid dt = false.
Proof.
  unfold continues, pubmed, pubmed_body, valid.
  destruct (History paper) as [dates|]; simpl.
  - destruct (online_date_of py_int datetime_ymd dates) as [dt|e] eqn:Hdate; simpl.
    + destruct (is_valid_date current_date latest dt) eqn:Hvalid; simpl.
      * split; [discriminate|].
        intros [H | (d & t & [= <-] & H1 & H2)]; congruence.
      * split; [|reflexivity]. intros _. right. now exists dates, dt.
    + split; [discriminate|].
      intros [H | (d & t & [= <-] & H1 & _)]; congruence.
  - split; [|reflexivity]. intros _. now left.
Qed.

(** C6, as the code has it. In each of the three loops no exception
    leaves the loop, and every record ends in one of three ways: it
    raises and is dropped, it is skipped by [continue], or it yields one
    article. A batch with exactly one raising record and no skipped
    record therefore yields one article fewer than it has records. A
    record raises when its date is missing or does not parse (for the
    citation source: when no date can be taken from its history); a
    record is skipped when its date is well formed and outside the
    validity window (for the citation source also when it has no
    history). *)
Theorem one_malformed_record_costs_one_article :
  (skips_only_what_fails pubmed
   /\ skips_only_what_fails preprint
   /\ skips_only_what_fails researchsquare)
  /\ (forall index paper,
        raises preprint index paper = true
        <-> pp_date paper = None
            \/ exists text, pp_date paper = Some text
                 /\ strptime text "%Y-%m-%d" = None)
  /\ (forall index paper,
        continues preprint index paper = true
        <-> exists text dt, pp_date paper = Some text
              /\ strptime text "%Y-%m-%d" = Some dt /\ valid dt = false)
  /\ (forall index paper,
        raises researchsquare index paper = true
        <-> rs_posted_at paper = None
            \/ exists text, rs_posted_at paper = Some text
                 /\ strptime text "%Y-%m-%d %H:%M:%S" = None)
  /\ (forall index paper,
        continues researchsquare index paper = true
        <-> exists text dt, rs_posted_at paper = Some text
              /\ strptime text "%Y-%m-%d %H:%M:%S" = Some dt /\ valid dt = false)
  /\ (forall index paper,
        raises pubmed index paper = true
        <-> exists dates e, History paper = Some dates
              /\ online_date_of py_int datetime_ymd dates = Raise e)
  /\ (forall index paper,
        continues pubmed index paper = true
        <-> History paper = None
            \/ exists dates dt, History paper = Some dates
                 /\ online_date_of py_int datetime_ymd dates = Value dt
                 /\ valid dt = false).
Proof.
  split.
  { split; [|split]; apply skips_only_what_fails_any. }
  split; [exact preprint_raises|].
  split; [exact preprint_continues|].
  split; [exact researchsquare_raises|].
  split; [exact researchsquare_continues|].
  split; [exact pubmed_raises | exact pubmed_continues].
Qed.

End Normalizers.

(** A run of C6: of three preprint records, the second of which has a
    date that does not parse, two articles come out. *)
Lemma one_malformed_record_costs_one_article_witness :
  List.length
    (for_each_paper
       (preprint_body Samples.strptime Samples.strftime "covid" Samples.now
          (max_future_date Samples.now 6))
       0 [Samples.recent_preprint; Samples.unparseable_preprint;
          Samples.another_preprint] [])
  = 2%nat.
Proof.
  destruct (one_malformed_record_costs_one_article
              Samples.strptime Samples.strftime Samples.py_int Samples.datetime_ymd
              "covid" Samples.now (max_future_date Samples.now 6) (fun _ => Samples.now))
    as [[_ [Hpreprint _]] _].
  destruct (Hpreprint [Samples.recent_preprint; Samples.unparseable_preprint;
                       Samples.another_preprint]) as (_ & Hone & _).
  apply Hone; reflexivity.
Defined.

(** C6, as stated, fails: of two preprint records, one with a date that
    does not parse and one well formed but ten years old, the loop
    drops both, the first by its exception and the second by the
    validity window. *)
Lemma stale_record_is_dropped_too :
  count_at
    (raises (preprint_body Samples.strptime Samples.strftime "covid" Samples.now
               (max_future_date Samples.now 6)))
    0 [Samples.unparseable_preprint; Samples.old_preprint] = 1%nat
  /\ for_each_paper
       (preprint_body Samples.strptime Samples.strftime "covid" Samples.now
          (max_future_date Samples.now 6))
       0 [Samples.unparseable_preprint; Samples.old_preprint] []
     = []
  /\ (List.length (@nil article)
      <> List.length [Samples.unparseable_preprint; Samples.old_preprint] - 1)%nat.
Proof.
  split; [reflexivity|]. split; [reflexivity|]. discriminate.
Qed.

(** ** The date of a citation record *)

Lemma fold_left_max_spec (rest : list Z) :
  forall first,
    first <= fold_left Z.max rest first
    /\ Forall (fun dt => dt <= fold_left Z.max rest first) rest
    /\ (fold_left Z.max rest first = first \/ In (fold_left Z.max rest first) rest).
Proof.
  induction rest as [|dt rest IH]; intro first; simpl.
  - split; [lia|]. split; [constructor | now left].
  - destruct (IH (Z.max first dt)) as (Hge & Hall & Hin).
    split; [lia|]. split.
    + constructor; [lia | exact Hall].
    + destruct Hin as [Heq | Hin]; [|now right; right].
      rewrite Heq.
      destruct (Z.max_spec first dt) as [[_ ->] | [_ ->]]; auto.
Qed.

Section CitationDate.

Variable strftime : datetime -> string -> string.
Variable py_int : string -> option Z.
Variable datetime_ymd : Z -> Z -> Z -> option datetime.

Lemma first_pubmed_date_without_key dates :
  Forall (fun entry => without_status_key entry = true) dates ->
  first_pubmed_date py_int datetime_ymd dates = Value None.
Proof.
  induction 1 as [|entry rest Hentry _ IH]; [reflexivity|].
  destruct entry as [|attribute [status|] Year Month Day]; simpl.
  - exact IH.
  - discriminate Hentry.
  - exact IH.
Qed.

Lemma history_datetimes_In dates :
  forall dts entry dt,
    history_datetimes py_int datetime_ymd dates = Value dts ->
    In entry dates ->
    date_of_entry py_int datetime_ymd entry = Some dt ->
    In dt dts.
Proof.
  induction dates as [|first rest IH]; intros dts entry dt Hdts Hin Hdate.
  - destruct Hin.
  - destruct first as [|attribute status Year Month Day].
    + destruct Hin as [<- | Hin]; [discriminate Hdate|].
      exact (IH dts entry dt Hdts Hin Hdate).
    + simpl in Hdts.
      destruct (history_datetime py_int datetime_ymd Year Month Day)
        as [dt0|e] eqn:Hfirst; [|discriminate].
      simpl in Hdts.
      destruct (history_datetimes py_int datetime_ymd rest) as [dts0|e];
        [|discriminate].
      simpl in Hdts. injection Hdts as <-.
      destruct Hin as [<- | Hin].
      * simpl in Hdate. rewrite Hfirst in Hdate. injection Hdate as <-.
        now left.
      * right. exact (IH dts0 entry dt eq_refl Hin Hdate).
Qed.

Lemma py_max_latest dts :
  match dts with
  | [] => exists e, py_max dts = Raise e
  | _ :: _ =>
      exists latest, py_max dts = Value latest
        /\ In latest dts /\ Forall (fun dt => dt <= latest) dts
  end.
Proof.
  destruct dts as [|first rest]; simpl.
  - eexists. reflexivity.
  - destruct (fold_left_max_spec rest first) as (Hge & Hall & Hin).
    eexists. split; [reflexivity|]. split.
    + destruct Hin as [-> | Hin]; auto.
    + constructor; assumption.
Qed.

(** C7, on the records the loop receives. The loop looks for the status
    of a history item under the key ['PubStatus'], which a parsed item
    does not have: its status is in [.attributes]. So for a history none
    of whose items has that key, whatever their status attributes, no
    item is selected by its status, and the date is the latest of the
    dates of all items (the record raises when a date cannot be formed
    or when there is none). An item whose status attribute is [pubmed],
    or any other, gives the date only when no item is later. A record
    without history yields no article, and the date of an article is
    the date so selected. *)
Theorem citation_date_ignores_status_attribute dates :
  Forall (fun entry => without_status_key entry = true) dates ->
  first_pubmed_date py_int datetime_ymd dates = Value None
  /\ online_date_of py_int datetime_ymd dates
     = (dts <- history_datetimes py_int datetime_ymd dates ;; py_max dts)
  /\ (forall dts,
        history_datetimes py_int datetime_ymd dates = Value dts ->
        match dts with
        | [] => exists e, online_date_of py_int datetime_ymd dates = Raise e
        | _ :: _ =>
            exists latest, online_date_of py_int datetime_ymd dates = Value latest
              /\ In latest dts /\ Forall (fun dt => dt <= latest) dts
        end)
  /\ (forall status entry dt selected,
        In entry dates ->
        tagged status entry = true ->
        date_of_entry py_int datetime_ymd entry = Some dt ->
        online_date_of py_int datetime_ymd dates = Value selected ->
        dt <= selected
        /\ (forall other later,
              In other dates ->
              date_of_entry py_int datetime_ymd other = Some later ->
              dt < later -> selected <> dt))
  /\ (forall query current_date latest index paper,
        History paper = None ->
        pubmed_body strftime py_int datetime_ymd query current_date latest index paper
        = Value None)
  /\ (forall query current_date latest index paper a,
        History paper = Some dates ->
        pubmed_body strftime py_int datetime_ymd query current_date latest index paper
        = Value (Some a) ->
        online_date_of py_int datetime_ymd dates = Value (date a)
        /\ is_valid_date current_date latest (date a) = true
        /\ forall entry dt,
             In entry dates ->
             date_of_entry py_int datetime_ymd entry = Some dt ->
             dt <= date a).
Proof.
  intro Hkeys.
  assert (Hnone : first_pubmed_date py_int datetime_ymd dates = Value None)
    by exact (first_pubmed_date_without_key dates Hkeys).
  assert (Hmax : online_date_of py_int datetime_ymd dates
                 = (dts <- history_datetimes py_int datetime_ymd dates ;; py_max dts)).
  { unfold online_date_of. rewrite Hnone. reflexivity. }
  assert (Hlatest : forall entry dt selected,
             In entry dates ->
             date_of_entry py_int datetime_ymd entry = Some dt ->
             online_date_of py_int datetime_ymd dates = Value selected ->
             dt <= selected).
  { intros entry dt selected Hin Hdate Hselected.
    rewrite Hmax in Hselected.
    destruct (history_datetimes py_int datetime_ymd dates) as [dts|e] eqn:Hdts;
      [|discriminate].
    simpl in Hselected.
    pose proof (history_datetimes_In dates dts entry dt Hdts Hin Hdate) as Hdt.
    pose proof (py_max_latest dts) as Hspec.
    destruct dts as [|first rest]; [destruct Hdt|].
    destruct Hspec as (top & Htop & _ & Hall).
    rewrite Htop in Hselected. injection Hselected as <-.
    rewrite Forall_forall in Hall. exact (Hall dt Hdt). }
  split; [exact Hnone|]. split; [exact Hmax|].
  split; [|split; [|split]].
  - intros dts Hdts. rewrite Hmax, Hdts. simpl. apply py_max_latest.
  - intros status entry dt selected Hin _ Hdate Hselected.
    split; [exact (Hlatest entry dt selected Hin Hdate Hselected)|].
    intros other later Hother Hlater Hlt Heq.
    pose proof (Hlatest other later selected Hother Hlater Hselected).
    lia.
  - intros query current_date latest index paper Hhistory.
    unfold pubmed_body. now rewrite Hhistory.
  - intros query current_date latest index paper a Hhistory Hbody.
    unfold pubmed_body in Hbody. rewrite Hhistory in Hbody.
    destruct (online_date_of py_int datetime_ymd dates) as [dt|e] eqn:Hselected;
      [|discriminate].
    simpl in Hbody.
    destruct (is_valid_date current_date latest dt) eqn:Hvalid; [|discriminate].
    simpl in Hbody. injection Hbody as <-. simpl.
    split; [reflexivity|]. split; [exact Hvalid|].
    intros entry dt' Hin Hdate.
    exact (Hlatest entry dt' dt Hin Hdate eq_refl).
Qed.

End CitationDate.

(** A run of C7 on a parsed record, searched at noon of 1 June 2024. The
    history has an item of status [pubmed] dated 3 May 2024 and a later
    item of status [medline] dated 28 May 2024: no item is selected by
    its status, and the article of the record is dated 28 May. *)
Lemma citation_date_ignores_status_attribute_witness :
  nth_error Samples.pubmed_not_latest 1
    = Some (Samples.PubMedPubDate "pubmed" "2024" "05" "03")
  /\ tagged "pubmed" (Samples.PubMedPubDate "pubmed" "2024" "05" "03") = true
  /\ date_of_entry Samples.py_int Samples.datetime_ymd
       (Samples.PubMedPubDate "pubmed" "2024" "05" "03")
     = Some (midnight (Samples.days_from_civil 2024 5 3))
  /\ first_pubmed_date Samples.py_int Samples.datetime_ymd Samples.pubmed_not_latest
     = Value None
  /\ online_date_of Samples.py_int Samples.datetime_ymd Samples.pubmed_not_latest
     = Value (midnight (Samples.days_from_civil 2024 5 28))
  /\ map date
       (search_articles Samples.strptime Samples.strftime Samples.py_int
          Samples.datetime_ymd "fatigue"
          (mkObservation [Samples.parsed_citation] [] [] Samples.now
             (fun _ => Samples.now) Samples.now)
          None 6)
     = [midnight (Samples.days_from_civil 2024 5 28)].
Proof.
  destruct (citation_date_ignores_status_attribute Samples.strftime Samples.py_int
              Samples.datetime_ymd Samples.pubmed_not_latest)
    as (Hnone & Hmax & _).
  - repeat constructor.
  - split; [reflexivity|]. split; [reflexivity|]. split; [reflexivity|].
    split; [exact Hnone|]. split.
    + rewrite Hmax. reflexivity.
    + vm_compute. reflexivity.
Defined.

(** C7 with the status of its wording: a parsed history has an item of
    status [published], dated 10 January 2024, and the date selected is
    that of the latest item, 20 February 2024. *)
Lemma published_tag_is_not_consulted :
  nth_error Samples.published_then_received 0
    = Some (Samples.PubMedPubDate "published" "2024" "01" "10")
  /\ tagged "published" (Samples.PubMedPubDate "published" "2024" "01" "10") = true
  /\ date_of_entry Samples.py_int Samples.datetime_ymd
       (Samples.PubMedPubDate "published" "2024" "01" "10")
     = Some (midnight (Samples.days_from_civil 2024 1 10))
  /\ online_date_of Samples.py_int Samples.datetime_ymd Samples.published_then_received
     = Value (midnight (Samples.days_from_civil 2024 2 20))
  /\ midnight (Samples.days_from_civil 2024 2 20)
     <> midnight (Samples.days_from_civil 2024 1 10).
Proof.
  split; [reflexivity|]. split; [reflexivity|]. split; [reflexivity|].
  split; [reflexivity|].
  vm_compute. discriminate.
Qed.

(** ** The dict of seen titles *)

Open Scope list_scope.

Lemma lookup_snoc title key entry seen :
  lookup title (seen ++ [(key, entry)])
  = match lookup title seen with
    | Some found => Some found
    | None => if String.eqb key title then Some entry else None
    end.
Proof.
  induction seen as [|[k e] rest IH]; simpl.
  - reflexivity.
  - destruct (String.eqb k title); [reflexivity | exact IH].
Qed.

Lemma lookup_append_query title key query seen :
  lookup title (append_query key query seen)
  = if String.eqb key title
    then option_map (fun e => mkMerged (stored e) (queries e ++ [query]))
           (lookup title seen)
    else lookup title seen.
Proof.
  induction seen as [|[k e] rest IH]; simpl.
  - now destruct (String.eqb key title).
  - destruct (String.eqb_spec k key) as [-> | Hk]; simpl.
    + destruct (String.eqb_spec key title) as [-> | Ht]; reflexivity.
    + destruct (String.eqb_spec k title) as [-> | Ht].
      * destruct (String.eqb_spec key title) as [<- | _]; [contradiction | reflexivity].
      * exact IH.
Qed.

Lemma lookup_None title seen :
  lookup title seen = None <-> ~ In title (map fst seen).
Proof.
  induction seen as [|[k e] rest IH]; simpl.
  - tauto.
  - destruct (String.eqb_spec k title) as [-> | Hk].
    + split; [discriminate | tauto].
    + rewrite IH. tauto.
Qed.

Lemma append_query_keys key query seen :
  map fst (append_query key query seen) = map fst seen.
Proof.
  induction seen as [|[k e] rest IH]; simpl; [reflexivity|].
  destruct (String.eqb k key); simpl; [reflexivity | now rewrite IH].
Qed.

Lemma append_query_stored key query seen :
  map stored (values (append_query key query seen)) = map stored (values seen).
Proof.
  unfold values.
  induction seen as [|[k e] rest IH]; simpl; [reflexivity|].
  destruct (String.eqb k key); simpl; [reflexivity | now rewrite IH].
Qed.

Lemma append_query_well_keyed key query seen :
  well_keyed seen -> well_keyed (append_query key query seen).
Proof.
  intros [Hnodup Htitles]. split.
  - now rewrite append_query_keys.
  - clear Hnodup.
    induction Htitles as [|[k e] rest Hhead Hrest IH]; simpl; [constructor|].
    destruct (String.eqb k key); constructor; assumption.
Qed.

Lemma merge_result_well_keyed query seen result :
  well_keyed seen -> well_keyed (merge_result query seen result).
Proof.
  intro Hseen. unfold merge_result. fold (title_of result).
  destruct (lookup (title_of result) seen) eqn:Hlookup.
  - now apply append_query_well_keyed.
  - destruct Hseen as [Hnodup Htitles]. split.
    + rewrite map_app. simpl.
      apply NoDup_app_remove_l with (l := []).
      apply lookup_None in Hlookup.
      apply Permutation_NoDup with (l := title_of result :: map fst seen).
      * apply Permutation_cons_append.
      * now constructor.
    + apply Forall_app. split; [assumption|].
      constructor; [reflexivity | constructor].
Qed.

Lemma merge_stream_snoc results query result seen :
  merge_stream (results ++ [(query, result)]) seen
  = merge_result query (merge_stream results seen) result.
Proof.
  unfold merge_stream. now rewrite fold_left_app.
Qed.

Lemma merge_stream_well_keyed results :
  well_keyed (merge_stream results []).
Proof.
  induction results as [|[query result] results IH] using rev_ind.
  - split; constructor.
  - rewrite merge_stream_snoc. now apply merge_result_well_keyed.
Qed.

Lemma sightings_snoc title results query result :
  sightings title (results ++ [(query, result)])
  = (sightings title results
     ++ if has_title title result then [(query, result)] else [])%list.
Proof.
  unfold sightings. rewrite filter_app. simpl.
  now destruct (has_title title result).
Qed.

(** Under every title the merge holds the first result that showed the
    title, unchanged, with the queries of all sightings in order. *)
Lemma merge_stream_lookup title results :
  lookup title (merge_stream results []) = filed title results.
Proof.
  induction results as [|[query result] results IH] using rev_ind.
  - reflexivity.
  - rewrite merge_stream_snoc.
    unfold filed in *. rewrite sightings_snoc.
    unfold merge_result, has_title. fold (title_of result).
    destruct (lookup (title_of result) (merge_stream results [])) as [found|] eqn:Hkey.
    + rewrite lookup_append_query.
      destruct (String.eqb_spec (title_of result) title) as [Heq | Hne].
      * subst title. rewrite Hkey in IH.
        destruct (sightings (title_of result) results) as [|[q0 r0] later];
          [discriminate|].
        injection IH as ->. rewrite Hkey. simpl.
        now rewrite map_app.
      * rewrite app_nil_r. exact IH.
    + rewrite lookup_snoc.
      destruct (String.eqb_spec (title_of result) title) as [Heq | Hne].
      * subst title. rewrite Hkey in IH. rewrite Hkey.
        destruct (sightings (title_of result) results) as [|[q0 r0] later];
          [reflexivity | discriminate].
      * rewrite app_nil_r, IH.
        now destruct (sightings title results) as [|[q0 r0] later].
Qed.

Lemma existsb_key title seen :
  existsb (String.eqb title) (map fst seen)
  = match lookup title seen with Some _ => true | None => false end.
Proof.
  induction seen as [|[k e] rest IH]; simpl; [reflexivity|].
  rewrite String.eqb_sym.
  destruct (String.eqb k title); [reflexivity | exact IH].
Qed.

(** The keys of the dict are the titles in the order of their first
    sighting. *)
Lemma merge_stream_keys results :
  map fst (merge_stream results []) = first_seen_titles results.
Proof.
  unfold first_seen_titles.
  induction results as [|[query result] results IH] using rev_ind.
  - reflexivity.
  - rewrite merge_stream_snoc, fold_left_app. simpl.
    rewrite <- IH, existsb_key.
    unfold merge_result. fold (title_of result).
    destruct (lookup (title_of result) (merge_stream results [])).
    + apply append_query_keys.
    + rewrite map_app. reflexivity.
Qed.

Lemma values_titles seen :
  well_keyed seen ->
  map (fun a => title_of (stored a)) (values seen) = map fst seen.
Proof.
  intros [_ Htitles]. unfold values.
  induction Htitles as [|[k e] rest Hhead _ IH]; simpl; [reflexivity|].
  simpl in Hhead. now rewrite Hhead, IH.
Qed.

(** In a well-keyed dict the values that show a title are the one value
    filed under it. *)
Lemma values_with_title title seen :
  well_keyed seen ->
  filter (fun a => has_title title (stored a)) (values seen)
  = match lookup title seen with
    | Some found => [found]
    | None => []
    end.
Proof.
  intros [Hnodup Htitles].
  induction seen as [|[k e] rest IH]; simpl; [reflexivity|].
  inversion Hnodup as [|? ? Hfresh Hnodup']; subst.
  inversion Htitles as [|? ? Hhead Htitles']; subst.
  simpl in Hhead. unfold has_title at 1. simpl. rewrite Hhead.
  specialize (IH Hnodup' Htitles').
  destruct (String.eqb_spec k title) as [-> | Hk].
  - apply lookup_None in Hfresh. rewrite Hfresh in IH.
    now rewrite IH.
  - exact IH.
Qed.

(** Every value of the dict is filed under its own title. *)
Lemma values_filed a seen :
  well_keyed seen -> In a (values seen) ->
  lookup (title_of (stored a)) seen = Some a.
Proof.
  intros Hkeyed Hin.
  pose proof (values_with_title (title_of (stored a)) seen Hkeyed) as Hfilter.
  assert (Hin' : In a (filter (fun b => has_title (title_of (stored a)) (stored b))
                         (values seen))).
  { apply filter_In. split; [assumption|].
    unfold has_title. apply String.eqb_refl. }
  rewrite Hfilter in Hin'.
  destruct (lookup (title_of (stored a)) seen) as [found|].
  - destruct Hin' as [<- | []]. reflexivity.
  - destruct Hin'.
Qed.

(** ** The sort by date *)

Lemma Permutation_filter {A} (keep : A -> bool) (l l' : list A) :
  Permutation l l' -> Permutation (filter keep l) (filter keep l').
Proof.
  induction 1 as [| x l l' _ IH | x y l | l l' l'' _ IH1 _ IH2]; simpl.
  - constructor.
  - destruct (keep x); [now constructor | exact IH].
  - destruct (keep x), (keep y); try reflexivity. constructor.
  - now transitivity (filter keep l').
Qed.

Lemma insert_by_date_perm x sorted :
  Permutation (insert_by_date x sorted) (x :: sorted).
Proof.
  induction sorted as [|y rest IH]; simpl.
  - reflexivity.
  - destruct (date (stored y) <=? date (stored x)).
    + reflexivity.
    + rewrite IH. constructor.
Qed.

Lemma sort_by_date_reverse_perm l :
  Permutation (sort_by_date_reverse l) l.
Proof.
  induction l as [|x l IH]; simpl.
  - constructor.
  - rewrite insert_by_date_perm. now constructor.
Qed.

Lemma insert_by_date_head y x sorted :
  not_older y x -> HdRel not_older y sorted ->
  HdRel not_older y (insert_by_date x sorted).
Proof.
  intros Hyx Hhead.
  destruct sorted as [|z rest]; simpl.
  - now constructor.
  - destruct (date (stored z) <=? date (stored x)).
    + now constructor.
    + inversion Hhead; subst. now constructor.
Qed.

Lemma insert_by_date_sorted x sorted :
  Sorted not_older sorted -> Sorted not_older (insert_by_date x sorted).
Proof.
  induction 1 as [|y rest Hrest IH Hhead]; simpl.
  - repeat constructor.
  - destruct (Z.leb_spec (date (stored y)) (date (stored x))) as [Hle | Hgt].
    + constructor.
      * now constructor.
      * constructor. exact Hle.
    + constructor; [exact IH|].
      apply insert_by_date_head; [|exact Hhead].
      unfold not_older. lia.
Qed.

Lemma not_older_transitive : Relations_1.Transitive not_older.
Proof.
  intros a b c Hab Hbc. unfold not_older in *. lia.
Qed.

Lemma sort_by_date_reverse_sorted l :
  StronglySorted not_older (sort_by_date_reverse l).
Proof.
  apply Sorted_StronglySorted; [exact not_older_transitive|].
  induction l as [|x l IH]; simpl.
  - constructor.
  - now apply insert_by_date_sorted.
Qed.

(** Inserting does not reorder the elements of any one date. *)
Lemma insert_by_date_dated d x sorted :
  filter (dated d) (insert_by_date x sorted) = filter (dated d) (x :: sorted).
Proof.
  induction sorted as [|y rest IH]; [reflexivity|].
  simpl insert_by_date.
  destruct (Z.leb_spec (date (stored y)) (date (stored x))) as [Hle | Hgt];
    [reflexivity|].
  change (filter (dated d) (y :: insert_by_date x rest))
    with (if dated d y then y :: filter (dated d) (insert_by_date x rest)
          else filter (dated d) (insert_by_date x rest)).
  rewrite IH. simpl. unfold dated.
  destruct (Z.eqb_spec (date (stored y)) d) as [Hy | Hy];
    destruct (Z.eqb_spec (date (stored x)) d) as [Hx | Hx];
    try reflexivity.
  lia.
Qed.

Lemma sort_by_date_reverse_dated d l :
  filter (dated d) (sort_by_date_reverse l) = filter (dated d) l.
Proof.
  induction l as [|x l IH]; [reflexivity|].
  simpl sort_by_date_reverse. rewrite insert_by_date_dated.
  simpl. now rewrite IH.
Qed.

(** Two lists sorted by date, newest first, that agree on the order of
    the elements of every date are equal. *)
Lemma sorted_same_dates_eq l1 :
  forall l2,
    StronglySorted not_older l1 -> StronglySorted not_older l2 ->
    (forall d, filter (dated d) l1 = filter (dated d) l2) ->
    l1 = l2.
Proof.
  assert (Hself : forall a, dated (date (stored a)) a = true)
    by (intro a; apply Z.eqb_refl).
  induction l1 as [|x l1 IH]; intros [|y l2] H1 H2 Hsame.
  - reflexivity.
  - specialize (Hsame (date (stored y))). simpl in Hsame.
    rewrite Hself in Hsame. discriminate.
  - specialize (Hsame (date (stored x))). simpl in Hsame.
    rewrite Hself in Hsame. discriminate.
  - apply StronglySorted_inv in H1. destruct H1 as [H1 Hx].
    apply StronglySorted_inv in H2. destruct H2 as [H2 Hy].
    assert (Hxy : date (stored x) <= date (stored y)).
    { assert (Hin : In x (filter (dated (date (stored x))) (y :: l2))).
      { rewrite <- Hsame. simpl. rewrite Hself. now left. }
      apply filter_In in Hin. destruct Hin as [[<- | Hin] _]; [lia|].
      rewrite Forall_forall in Hy. exact (Hy _ Hin). }
    assert (Hyx : date (stored y) <= date (stored x)).
    { assert (Hin : In y (filter (dated (date (stored y))) (x :: l1))).
      { rewrite Hsame. simpl. rewrite Hself. now left. }
      apply filter_In in Hin. destruct Hin as [[<- | Hin] _]; [lia|].
      rewrite Forall_forall in Hx. exact (Hx _ Hin). }
    assert (Hdate : date (stored y) = date (stored x)) by lia.
    pose proof (Hsame (date (stored x))) as Hhead. simpl in Hhead.
    rewrite Hself in Hhead. unfold dated at 2 in Hhead.
    rewrite Hdate, Z.eqb_refl in Hhead.
    injection Hhead as <- _.
    f_equal. apply IH; try assumption.
    intro d. specialize (Hsame d). simpl in Hsame.
    destruct (dated d x); [now injection Hsame | exact Hsame].
Qed.

(** The contract of Python's sort determines its result: any list that
    is sorted by date, newest first, and keeps the articles of each date
    in their order in [l], is the list computed by stable insertion. *)
Lemma stable_sort_unique l sorted :
  StronglySorted not_older sorted ->
  (forall d, filter (dated d) sorted = filter (dated d) l) ->
  sorted = sort_by_date_reverse l.
Proof.
  intros Hsorted Hstable.
  apply sorted_same_dates_eq; [assumption | apply sort_by_date_reverse_sorted |].
  intro d. now rewrite sort_by_date_reverse_dated.
Qed.

(** ** The merged result *)

Lemma filter_articles_by_timeframe_incl now articles timeframe a :
  In a (filter_articles_by_timeframe now articles timeframe) -> In a articles.
Proof.
  unfold filter_articles_by_timeframe.
  destruct (start_date_of (date_of now) timeframe); [|trivial].
  intro H. apply filter_In in H. tauto.
Qed.

Lemma merge_stream_one_query query results :
  forall seen,
    merge_stream (map (pair query) results) seen
    = fold_left (merge_result query) results seen.
Proof.
  induction results as [|result results IH]; intro seen; simpl.
  - reflexivity.
  - apply IH.
Qed.

Section Combined.

Variable strptime : string -> string -> option datetime.
Variable strftime : datetime -> string -> string.
Variable py_int : string -> option Z.
Variable datetime_ymd : Z -> Z -> Z -> option datetime.

Variable world : nat -> observation.
Variable timeframe : option string.
Variable max_future_months : Z.

Let search query observed :=
  search_articles strptime strftime py_int datetime_ymd
    query observed timeframe max_future_months.
Let visits index queries :=
  results_stream strptime strftime py_int datetime_ymd
    world index queries timeframe max_future_months.
Let inserted queries :=
  values (merge_queries strptime strftime py_int datetime_ymd
            world 0 queries timeframe max_future_months []).
Let merged queries :=
  combine_and_display_results strptime strftime py_int datetime_ymd
    world queries timeframe max_future_months.
Let window observed :=
  is_valid_date (current_date observed)
    (max_future_date (current_date observed) max_future_months).

Lemma pubmed_body_valid query current_date latest index paper a :
  pubmed_body strftime py_int datetime_ymd query current_date latest index paper
  = Value (Some a) ->
  is_valid_date current_date latest (date a) = true.
Proof.
  unfold pubmed_body.
  destruct (History paper) as [dates|]; [|discriminate].
  destruct (online_date_of py_int datetime_ymd dates) as [dt|e]; [|discriminate].
  simpl.
  destruct (is_valid_date current_date latest dt) eqn:Hvalid; [|discriminate].
  simpl. now intros [= <-].
Qed.

Lemma preprint_body_valid query current_date latest index paper a :
  preprint_body strptime strftime query current_date latest index paper
  = Value (Some a) ->
  is_valid_date current_date latest (date a) = true.
Proof.
  unfold preprint_body, parse.
  destruct (pp_date paper) as [text|]; [|discriminate]. simpl.
  destruct (strptime text "%Y-%m-%d") as [dt|]; [|discriminate]. simpl.
  destruct (is_valid_date current_date latest dt) eqn:Hvalid; [|discriminate].
  simpl. now intros [= <-].
Qed.

Lemma researchsquare_body_valid query current_date latest now index paper a :
  researchsquare_body strptime strftime query current_date latest now index paper
  = Value (Some a) ->
  is_valid_date current_date latest (date a) = true.
Proof.
  unfold researchsquare_body, parse.
  destruct (rs_posted_at paper) as [text|]; [|discriminate]. simpl.
  destruct (strptime text "%Y-%m-%d %H:%M:%S") as [dt|]; [|discriminate]. simpl.
  destruct (is_valid_date current_date latest dt) eqn:Hvalid; [|discriminate].
  simpl. now intros [= <-].
Qed.

(** Every article [search_articles] returns is dated inside the validity
    window of its call. *)
Lemma search_articles_valid query observed a :
  In a (search query observed) -> window observed (date a) = true.
Proof.
  unfold search, search_articles, window. intro Hin.
  assert (Hnorm : In a (normalized_articles strptime strftime py_int datetime_ymd
                          query observed max_future_months)).
  { destruct (timeframe_given timeframe); [|exact Hin].
    eapply filter_articles_by_timeframe_incl. exact Hin. }
  clear Hin. unfold normalized_articles in Hnorm.
  apply for_each_paper_In in Hnorm.
  destruct Hnorm as [Hnorm | (i & paper & _ & Hbody)];
    [|eapply researchsquare_body_valid; exact Hbody].
  apply for_each_paper_In in Hnorm.
  destruct Hnorm as [Hnorm | (i & paper & _ & Hbody)];
    [|eapply preprint_body_valid; exact Hbody].
  apply for_each_paper_In in Hnorm.
  destruct Hnorm as [[] | (i & paper & _ & Hbody)].
  eapply pubmed_body_valid; exact Hbody.
Qed.

Lemma merge_queries_stream queries :
  forall index seen,
    merge_queries strptime strftime py_int datetime_ymd
      world index queries timeframe max_future_months seen
    = merge_stream (visits index queries) seen.
Proof.
  induction queries as [|query rest IH]; intros index seen; simpl.
  - reflexivity.
  - rewrite IH. unfold visits. simpl.
    unfold merge_stream at 2. rewrite fold_left_app.
    fold (merge_stream
            (map (pair query)
               (search_articles strptime strftime py_int datetime_ymd
                  query (world index) timeframe max_future_months)) seen).
    now rewrite merge_stream_one_query.
Qed.

Lemma visits_In queries :
  forall index query result,
    In (query, result) (visits index queries) ->
    exists position,
      nth_error queries position = Some query
      /\ In result (search query (world (index + position))).
Proof.
  induction queries as [|q rest IH]; intros index query result Hin.
  - destruct Hin.
  - unfold visits in Hin. simpl in Hin.
    apply in_app_or in Hin. destruct Hin as [Hin | Hin].
    + apply in_map_iff in Hin. destruct Hin as (r & [= <- <-] & Hin).
      exists 0%nat. rewrite Nat.add_0_r. now split.
    + apply IH in Hin. destruct Hin as (position & Hnth & Hin).
      exists (S position). rewrite Nat.add_succ_r. now split.
Qed.

Lemma inserted_stream queries :
  inserted queries = values (merge_stream (visits 0 queries) []).
Proof.
  unfold inserted. now rewrite merge_queries_stream.
Qed.

Lemma merged_perm queries :
  Permutation (merged queries) (inserted queries).
Proof.
  unfold merged, combine_and_display_results, inserted.
  apply sort_by_date_reverse_perm.
Qed.

(** Every merged article is the first result that showed its title, with
    the queries of all the sightings of that title. *)
Lemma merged_filed queries a :
  In a (merged queries) ->
  filed (title_of (stored a)) (visits 0 queries) = Some a.
Proof.
  intro Hin.
  apply (Permutation_in _ (merged_perm queries)) in Hin.
  rewrite inserted_stream in Hin.
  rewrite <- merge_stream_lookup.
  apply values_filed; [apply merge_stream_well_keyed | exact Hin].
Qed.

(** C1. For every list of queries and every title: the merged result
    holds exactly one article whose fragment shows the title when some
    result showed it, and none otherwise; that article is the first
    result that showed the title, and its [queries] are the query of
    every sighting of the title, in the order of the sightings, a query
    as often as it sighted the title. *)
Theorem one_article_per_title :
  forall (asked : list string) (title : string),
    filter (fun a => has_title title (stored a)) (merged asked)
    = match sightings title (visits 0 asked) with
      | [] => []
      | (first_query, first_result) :: later =>
          [mkMerged first_result (first_query :: map fst later)]
      end
    /\ (sightings title (visits 0 asked) <> [] ->
        exists a,
          filter (fun a => has_title title (stored a)) (merged asked) = [a]
          /\ queries a = map fst (sightings title (visits 0 asked))).
Proof.
  intros asked title.
  assert (Hfilter :
            filter (fun a => has_title title (stored a)) (merged asked)
            = match filed title (visits 0 asked) with
              | Some a => [a]
              | None => []
              end).
  { pose proof (Permutation_filter (fun a => has_title title (stored a))
                  _ _ (merged_perm asked)) as Hperm.
    rewrite inserted_stream in Hperm.
    rewrite values_with_title in Hperm by apply merge_stream_well_keyed.
    rewrite merge_stream_lookup in Hperm.
    destruct (filed title (visits 0 asked)) as [a|].
    - apply Permutation_sym, Permutation_length_1_inv in Hperm. exact Hperm.
    - apply Permutation_sym, Permutation_nil in Hperm. exact Hperm. }
  unfold filed in Hfilter.
  split.
  - rewrite Hfilter.
    now destruct (sightings title (visits 0 asked)) as [|[q0 r0] later].
  - intro Hseen. rewrite Hfilter.
    destruct (sightings title (visits 0 asked)) as [|[q0 r0] later];
      [contradiction|].
    eexists. split; reflexivity.
Qed.

(** C2. The merged result is sorted by date, newest first (of any two
    of its articles the earlier in the list is not the older), and the
    articles of any one date stand in the order in which they were
    inserted into the dict of seen titles, which is the order in which
    their titles were first sighted; the sort loses and adds nothing. *)
Theorem merged_sorted_stably :
  forall asked : list string,
    StronglySorted not_older (merged asked)
    /\ (forall d, filter (dated d) (merged asked) = filter (dated d) (inserted asked))
    /\ Permutation (merged asked) (inserted asked)
    /\ map (fun a => title_of (stored a)) (inserted asked)
       = first_seen_titles (visits 0 asked).
Proof.
  intro asked.
  split; [|split; [|split]].
  - apply sort_by_date_reverse_sorted.
  - intro d. apply sort_by_date_reverse_dated.
  - apply merged_perm.
  - rewrite inserted_stream, values_titles by apply merge_stream_well_keyed.
    apply merge_stream_keys.
Qed.

(** C9. Every article of the merged result has at least one query in
    [queries], the first being the query of the call of
    [search_articles] that produced the article, and its date lies in
    the validity window of that call: between the clock reading of the
    call minus 365*5 days and that reading plus 30 days for each of the
    [max_future_months]. *)
Theorem merged_articles_invariant :
  forall (asked : list string) (a : merged_article),
    In a (merged asked) ->
    queries a <> []
    /\ exists position query,
         nth_error asked position = Some query
         /\ hd_error (queries a) = Some query
         /\ In (stored a) (search query (world position))
         /\ current_date (world position) - timedelta_days (5 * 365)
            <= date (stored a)
            <= current_date (world position) + timedelta_days (max_future_months * 30).
Proof.
  intros asked a Hin.
  apply merged_filed in Hin. unfold filed in Hin.
  destruct (sightings (title_of (stored a)) (visits 0 asked))
    as [|[q0 r0] later] eqn:Hsightings; [discriminate|].
  injection Hin as <-. simpl.
  split; [discriminate|].
  assert (Hvisit : In (q0, r0) (visits 0 asked)).
  { assert (H : In (q0, r0) (sightings (title_of r0) (visits 0 asked)))
      by (simpl in Hsightings; rewrite Hsightings; now left).
    apply filter_In in H. tauto. }
  apply visits_In in Hvisit. destruct Hvisit as (position & Hnth & Hsearch).
  exists position, q0. simpl in Hsearch.
  split; [exact Hnth|]. split; [reflexivity|]. split; [exact Hsearch|].
  apply search_articles_valid in Hsearch.
  unfold window in Hsearch.
  apply is_valid_date_iff in Hsearch. exact Hsearch.
Qed.

(** C10. When a result shows a title that is already in the dict, the
    merge changes one thing: the query is appended to the [queries] of
    the entry of that title. The entry keeps its stored article (date,
    colour, fragment, query), every other entry is untouched, and the
    keys keep their order. So every article of the merged result is the
    first result that showed its title, whatever the dates of the later
    sightings. *)
Theorem repeated_title_changes_only_queries :
  (forall query seen result found,
      lookup (title_of result) seen = Some found ->
      lookup (title_of result) (merge_result query seen result)
      = Some (mkMerged (stored found) (queries found ++ [query]))
      /\ (forall other, other <> title_of result ->
            lookup other (merge_result query seen result) = lookup other seen)
      /\ map fst (merge_result query seen result) = map fst seen
      /\ map stored (values (merge_result query seen result))
         = map stored (values seen))
  /\ (forall asked a,
        In a (merged asked) ->
        exists first_query first_result later,
          sightings (title_of (stored a)) (visits 0 asked)
          = (first_query, first_result) :: later
          /\ stored a = first_result
          /\ queries a = first_query :: map fst later).
Proof.
  split.
  - intros query seen result found Hfound.
    unfold merge_result. fold (title_of result). rewrite Hfound.
    split; [|split; [|split]].
    + rewrite lookup_append_query, String.eqb_refl, Hfound. reflexivity.
    + intros other Hother. rewrite lookup_append_query.
      destruct (String.eqb_spec (title_of result) other) as [Heq | _];
        [now subst other | reflexivity].
    + apply append_query_keys.
    + apply append_query_stored.
  - intros asked a Hin.
    apply merged_filed in Hin. unfold filed in Hin.
    destruct (sightings (title_of (stored a)) (visits 0 asked))
      as [|[q0 r0] later]; [discriminate|].
    injection Hin as <-.
    exists q0, r0, later. simpl. auto.
Qed.

End Combined.

(** ** The merge on the sample world *)

(** A run of C1: two queries sight the title "Long covid outcomes"; the
    merged result has one article for it, with both queries in order. *)
Lemma one_article_per_title_witness :
  exists a,
    filter (fun a => has_title "Long covid outcomes" (stored a)) Samples.combined = [a]
    /\ queries a
       = map fst (sightings "Long covid outcomes"
                    (results_stream Samples.strptime Samples.strftime Samples.py_int
                       Samples.datetime_ymd Samples.world 0 Samples.two_queries None 6)).
Proof.
  destruct (one_article_per_title Samples.strptime Samples.strftime Samples.py_int
              Samples.datetime_ymd Samples.world None 6 Samples.two_queries
              "Long covid outcomes") as [_ Hone].
  apply Hone. vm_compute. discriminate.
Defined.

Lemma sample_queries_of_shared_title :
  map queries
    (filter (fun a => has_title "Long covid outcomes" (stored a)) Samples.combined)
  = [["covid"; "long covid"]].
Proof. vm_compute. reflexivity. Qed.

(** A run of C9 on the first article of the sample result. *)
Lemma merged_articles_invariant_witness :
  queries Samples.first_combined <> []
  /\ exists position query,
       nth_error Samples.two_queries position = Some query
       /\ hd_error (queries Samples.first_combined) = Some query
       /\ In (stored Samples.first_combined)
            (search_articles Samples.strptime Samples.strftime Samples.py_int
               Samples.datetime_ymd query (Samples.world position) None 6)
       /\ current_date (Samples.world position) - timedelta_days (5 * 365)
          <= date (stored Samples.first_combined)
          <= current_date (Samples.world position) + timedelta_days (6 * 30).
Proof.
  apply (merged_articles_invariant Samples.strptime Samples.strftime Samples.py_int
           Samples.datetime_ymd Samples.world None 6 Samples.two_queries
           Samples.first_combined).
  vm_compute. left. reflexivity.
Defined.

(** A run of C10: the article filed under "Long covid outcomes" is the
    preprint of 30 May found by the first query, although the second
    query found the title on a record of 31 May. *)
Lemma repeated_title_changes_only_queries_witness :
  exists first_query first_result later,
    sightings (title_of (stored Samples.first_combined))
      (results_stream Samples.strptime Samples.strftime Samples.py_int
         Samples.datetime_ymd Samples.world 0 Samples.two_queries None 6)
    = (first_query, first_result) :: later
    /\ stored Samples.first_combined = first_result
    /\ queries Samples.first_combined = first_query :: map fst later.
Proof.
  destruct (repeated_title_changes_only_queries Samples.strptime Samples.strftime
              Samples.py_int Samples.datetime_ymd Samples.world None 6)
    as [_ Hfirst].
  apply (Hfirst Samples.two_queries Samples.first_combined).
  vm_compute. left. reflexivity.
Defined.

Lemma sample_keeps_first_date :
  date (stored Samples.first_combined) = midnight (Samples.days_from_civil 2024 5 30)
  /\ map (fun visit => date (snd visit))
       (sightings (title_of (stored Samples.first_combined))
          (results_stream Samples.strptime Samples.strftime Samples.py_int
             Samples.datetime_ymd Samples.world 0 Samples.two_queries None 6))
     = [ midnight (Samples.days_from_civil 2024 5 30);
         midnight (Samples.days_from_civil 2024 5 31) + 8 * 3600 * 1000000 ].
Proof. vm_compute. split; reflexivity. Qed.

Lemma sample_combined_dates :
  map (fun a => date (stored a)) Samples.combined
  = [ midnight (Samples.days_from_civil 2024 5 30);
      midnight (Samples.days_from_civil 2024 5 2) ].
Proof. vm_compute. reflexivity. Qed.

(* ================================================================== *)
(** * Further properties of the code *)

(** ** Strings *)

Lemma append_assoc (a b c : string) :
  ((a ++ b) ++ c = a ++ (b ++ c))%string.
Proof.
  induction a as [|x a IH]; simpl; [reflexivity | now rewrite IH].
Qed.

Lemma length_append (a b : string) :
  String.length (a ++ b)%string = (String.length a + String.length b)%nat.
Proof.
  induction a as [|x a IH]; simpl; [reflexivity | now rewrite IH].
Qed.

Lemma append_nil_r (a : string) : (a ++ EmptyString)%string = a.
Proof.
  induction a as [|x a IH]; simpl; [reflexivity | now rewrite IH].
Qed.

Lemma prefix_nil (s : string) : String.prefix EmptyString s = true.
Proof. now destruct s. Qed.

Lemma prefix_cons (a b : ascii) (p s : string) :
  String.prefix (String a p) (String b s) = Ascii.eqb a b && String.prefix p s.
Proof.
  simpl. destruct (ascii_dec a b) as [-> | Hne].
  - now rewrite Ascii.eqb_refl.
  - apply Ascii.eqb_neq in Hne. now rewrite Hne.
Qed.

Lemma prefix_app (p s r : string) :
  String.prefix p s = true -> String.prefix p (s ++ r)%string = true.
Proof.
  revert s. induction p as [|a p IH]; intros s H.
  - now destruct (s ++ r)%string.
  - destruct s as [|b s]; [discriminate|]. simpl in *.
    destruct (ascii_dec a b); [now apply IH | discriminate].
Qed.

Lemma prefix_app_false (p s r : string) :
  String.prefix p s = false -> (String.length p <= String.length s)%nat ->
  String.prefix p (s ++ r)%string = false.
Proof.
  revert s. induction p as [|a p IH]; intros s H Hlen.
  - now destruct s.
  - destruct s as [|b s]; [simpl in Hlen; lia|]. simpl in *.
    destruct (ascii_dec a b); [apply IH; [assumption | lia] | reflexivity].
Qed.

Lemma prefix_length (p s : string) :
  String.prefix p s = true -> (String.length p <= String.length s)%nat.
Proof.
  revert s. induction p as [|a p IH]; intros s H; simpl; [lia|].
  destruct s as [|b s]; [discriminate|]. simpl in *.
  destruct (ascii_dec a b); [|discriminate].
  apply IH in H. lia.
Qed.

Lemma index_cons (p : string) (c : ascii) (s : string) :
  String.index 0 p (String c s)
  = if String.prefix p (String c s) then Some 0%nat
    else match String.index 0 p s with
         | Some k => Some (S k)
         | None => None
         end.
Proof. reflexivity. Qed.

Lemma index_some_length (p s : string) :
  forall k, String.index 0 p s = Some k ->
            (k + String.length p <= String.length s)%nat.
Proof.
  induction s as [|c s IH]; intros k H.
  - simpl in H. destruct p; [|discriminate]. injection H as <-. simpl. lia.
  - rewrite index_cons in H.
    destruct (String.prefix p (String c s)) eqn:Hp.
    + injection H as <-. apply prefix_length in Hp. simpl in *. lia.
    + destruct (String.index 0 p s) as [k'|]; [|discriminate].
      injection H as <-. specialize (IH k' eq_refl). simpl. lia.
Qed.

(** An occurrence found in a string is still the first one when text is
    appended. *)
Lemma index_app_found (p s r : string) :
  forall k, String.index 0 p s = Some k ->
            String.index 0 p (s ++ r)%string = Some k.
Proof.
  induction s as [|c s IH]; intros k H.
  - simpl in H. destruct p; [|discriminate]. injection H as <-.
    simpl. now destruct r.
  - rewrite index_cons in H.
    change (String c s ++ r)%string with (String c (s ++ r)%string).
    rewrite index_cons.
    change (String c (s ++ r)%string) with (String c s ++ r)%string.
    destruct (String.prefix p (String c s)) eqn:Hp.
    + injection H as <-. now rewrite (prefix_app _ _ r Hp).
    + destruct (String.index 0 p s) as [k'|] eqn:Hk; [|discriminate].
      injection H as <-.
      rewrite (prefix_app_false _ _ r Hp).
      * now rewrite (IH k' eq_refl).
      * apply index_some_length in Hk. simpl. lia.
Qed.

Lemma differs_prefix (p s r : string) :
  differs p s = true -> String.prefix p (s ++ r)%string = false.
Proof.
  revert s. induction p as [|a p IH]; intros s H.
  - destruct s; discriminate.
  - destruct s as [|b s]; [discriminate|]. simpl in *.
    destruct (Ascii.eqb_spec a b) as [-> | Hne].
    + destruct (ascii_dec b b); [now apply IH | reflexivity].
    + destruct (ascii_dec a b); [contradiction | reflexivity].
Qed.

(** A text in which the pattern can start nowhere is skipped by the
    search. *)
Lemma index_skip (p s r : string) :
  nowhere p s = true ->
  String.index 0 p (s ++ r)%string
  = option_map (fun k => (String.length s + k)%nat) (String.index 0 p r).
Proof.
  induction s as [|c s IH]; intro H.
  - simpl. now destruct (String.index 0 p r).
  - simpl in H. apply andb_true_iff in H. destruct H as [Hhere Hrest].
    change (String c s ++ r)%string with (String c (s ++ r)%string).
    rewrite index_cons.
    change (String c (s ++ r)%string) with (String c s ++ r)%string.
    rewrite (differs_prefix _ _ r Hhere), (IH Hrest).
    now destruct (String.index 0 p r).
Qed.

(** The closing tag has no border: where a text without it is followed
    by it, the first occurrence is the one that follows. *)
Lemma index_close_after (title tail : string) :
  String.index 0 "</h3>" title = None ->
  String.index 0 "</h3>" (title ++ "</h3>" ++ tail)%string
  = Some (String.length title).
Proof.
  induction title as [|c title IH]; intro H.
  - now destruct tail.
  - rewrite index_cons in H.
    destruct (String.prefix "</h3>" (String c title)) eqn:Hp; [discriminate|].
    destruct (String.index 0 "</h3>" title) as [k|] eqn:Hk; [discriminate|].
    change (String c title ++ "</h3>" ++ tail)%string
      with (String c (title ++ "</h3>" ++ tail)%string).
    rewrite index_cons.
    change (String c (title ++ "</h3>" ++ tail)%string)
      with (String c title ++ "</h3>" ++ tail)%string.
    assert (Hno : String.prefix "</h3>" (String c title ++ "</h3>" ++ tail)%string
                  = false).
    { clear IH Hk H.
      assert (E1 : Ascii.eqb "/" "<" = false) by reflexivity.
      assert (E2 : Ascii.eqb "h" "<" = false) by reflexivity.
      assert (E3 : Ascii.eqb "3" "<" = false) by reflexivity.
      assert (E4 : Ascii.eqb ">" "<" = false) by reflexivity.
      destruct title as [|c2 [|c3 [|c4 [|c5 rest]]]];
        cbn [String.append] in *;
        rewrite ?prefix_cons, ?prefix_nil in *;
        rewrite ?E1, ?E2, ?E3, ?E4;
        cbn [andb]; rewrite ?andb_false_r;
        try reflexivity.
      exact Hp. }
    rewrite Hno, (IH eq_refl). reflexivity.
Qed.

Lemma substring_skip (a s : string) (m : nat) :
  String.substring (String.length a) m (a ++ s)%string = String.substring 0 m s.
Proof.
  induction a as [|x a IH]; simpl; [reflexivity | exact IH].
Qed.

Lemma substring_app_le (s r : string) :
  forall m, (m <= String.length s)%nat ->
            String.substring 0 m (s ++ r)%string = String.substring 0 m s.
Proof.
  induction s as [|x s IH]; intros m Hm; simpl in Hm.
  - assert (m = 0)%nat by lia. subst. simpl. now destruct r.
  - destruct m as [|m]; [reflexivity|]. simpl. rewrite IH by lia. reflexivity.
Qed.

Lemma substring_all (s : string) :
  String.substring 0 (String.length s) s = s.
Proof.
  induction s as [|x s IH]; simpl; [reflexivity | now rewrite IH].
Qed.

(** A slice that starts after [a] and is [m] characters long, [m] no
    more than the text [s] that follows [a]. *)
Lemma slice_after (a s r : string) (m : nat) :
  (m <= String.length s)%nat ->
  PyStr.slice (a ++ s ++ r)%string
    (Z.of_nat (String.length a)) (Z.of_nat (String.length a + m))
  = String.substring 0 m s.
Proof.
  intro Hm. unfold PyStr.slice, PyStr.clamp.
  rewrite !length_append.
  destruct (Z.ltb_spec (Z.of_nat (String.length a)) 0) as [Hneg|_]; [lia|].
  destruct (Z.ltb_spec (Z.of_nat (String.length a + m)) 0) as [Hneg|_]; [lia|].
  rewrite !Z.min_l by lia.
  destruct (Z.ltb_spec (Z.of_nat (String.length a)) (Z.of_nat (String.length a + m)))
    as [Hlt | Hge].
  - rewrite Nat2Z.id.
    replace (Z.to_nat (Z.of_nat (String.length a + m) - Z.of_nat (String.length a)))
      with m by lia.
    rewrite substring_skip. now apply substring_app_le.
  - assert (m = 0)%nat by lia. subst. simpl. now destruct s.
Qed.

Lemma prefix_refl (p : string) : String.prefix p p = true.
Proof.
  induction p as [|a p IH]; [reflexivity|].
  now rewrite prefix_cons, Ascii.eqb_refl, IH.
Qed.

Lemma index_self_app (a : ascii) (p r : string) :
  String.index 0 (String a p) (String a p ++ r)%string = Some 0%nat.
Proof.
  change (String a p ++ r)%string with (String a (p ++ r)%string).
  rewrite index_cons.
  change (String a (p ++ r)%string) with (String a p ++ r)%string.
  now rewrite (prefix_app _ _ r (prefix_refl (String a p))).
Qed.

Lemma substring_length (s : string) :
  forall k, (k <= String.length s)%nat ->
            String.length (String.substring 0 k s) = k.
Proof.
  induction s as [|x s IH]; intros k Hk; simpl in Hk.
  - assert (k = 0)%nat by lia. now subst.
  - destruct k as [|k]; [reflexivity|]. simpl. rewrite IH by lia. reflexivity.
Qed.

(** ** The title read back from a fragment *)

Lemma source_hues_clear (color : string) :
  In color source_hues ->
  nowhere "<h3>" (div_open color ++ sp20)%string = true
  /\ nowhere "</h3>" (div_open color ++ sp20)%string = true.
Proof.
  unfold source_hues. intro Hin.
  repeat (destruct Hin as [<- | Hin]; [split; vm_compute; reflexivity|]).
  destruct Hin.
Qed.

(** Where the search for [</h3>] in a title followed by [</h3>] ends:
    after the part of the title before its own first [</h3>]. *)
Lemma index_close_title (title tail : string) :
  String.index 0 "</h3>" (title ++ "</h3>" ++ tail)%string
  = Some (String.length (before_close title))
  /\ (String.length (before_close title) <= String.length title)%nat
  /\ String.substring 0 (String.length (before_close title)) title
     = before_close title.
Proof.
  unfold before_close.
  destruct (String.index 0 "</h3>" title) as [k|] eqn:Hk.
  - pose proof (index_some_length _ _ _ Hk) as Hlen.
    rewrite substring_length by lia.
    split; [now apply index_app_found|]. split; [lia | reflexivity].
  - split; [now apply index_close_after|]. split; [lia | apply substring_all].
Qed.

(** The key of the merge, read back from a fragment: the title up to its
    first [</h3>], stripped. *)
Lemma extract_title_fragment (color title tail : string) :
  In color source_hues ->
  extract_title (fragment_head color ++ title ++ "</h3>" ++ tail)%string
  = PyStr.strip (before_close title).
Proof.
  intro Hin. destruct (source_hues_clear color Hin) as [Hopen Hclose].
  destruct (index_close_title title tail) as (Hindex & Hle & Hsub).
  set (lead := (div_open color ++ sp20)%string) in *.
  assert (Hhead : fragment_head color = (lead ++ "<h3>")%string).
  { unfold fragment_head, lead. now rewrite append_assoc. }
  unfold extract_title, PyStr.find.
  assert (Hfind_open :
            String.index 0 "<h3>" (fragment_head color ++ title ++ "</h3>" ++ tail)%string
            = Some (String.length lead)).
  { rewrite Hhead, append_assoc, (index_skip _ _ _ Hopen), index_self_app.
    cbn [option_map]. now rewrite Nat.add_0_r. }
  assert (Hfind_close :
            String.index 0 "</h3>" (fragment_head color ++ title ++ "</h3>" ++ tail)%string
            = Some (String.length lead + 4 + String.length (before_close title))%nat).
  { rewrite Hhead, append_assoc, (index_skip _ _ _ Hclose).
    rewrite (index_skip "</h3>" "<h3>" _ eq_refl), Hindex.
    cbn [option_map String.length]. now rewrite Nat.add_assoc. }
  rewrite Hfind_open, Hfind_close.
  replace (Z.of_nat (String.length lead) + 4)
    with (Z.of_nat (String.length (fragment_head color)))
    by (rewrite Hhead, length_append; cbn [String.length]; lia).
  replace (String.length lead + 4 + String.length (before_close title))%nat
    with (String.length (fragment_head color) + String.length (before_close title))%nat
    by (rewrite Hhead, length_append; cbn [String.length]; lia).
  rewrite slice_after by exact Hle.
  now rewrite Hsub.
Qed.

Lemma fragment_shape (color title rest : string) :
  (div_open color ++ row ("<h3>" ++ title ++ "</h3>") ++ rest)%string
  = (fragment_head color ++ title ++ "</h3>" ++ PyStr.nl ++ rest)%string.
Proof.
  unfold row, fragment_head.
  repeat rewrite append_assoc. reflexivity.
Qed.

Lemma pubmed_hue now d : In (get_pubmed_color now d) source_hues.
Proof.
  unfold get_pubmed_color, source_hues.
  destruct (days (now - d) <=? 7); [|destruct (days (now - d) <=? 30)];
    simpl; tauto.
Qed.

Lemma preprint_hue now d : In (get_preprint_color now d) source_hues.
Proof.
  unfold get_preprint_color, source_hues.
  destruct (days (now - d) <=? 7); [|destruct (days (now - d) <=? 30)];
    simpl; tauto.
Qed.

Lemma researchsquare_hue now d : In (get_researchsquare_color now d) source_hues.
Proof.
  unfold get_researchsquare_color, source_hues.
  destruct (days (now - d) <=? 7); [|destruct (days (now - d) <=? 30)];
    simpl; tauto.
Qed.

Lemma before_close_whole (title : string) :
  PyStr.find "</h3>" title = -1 -> before_close title = title.
Proof.
  unfold PyStr.find, before_close.
  destruct (String.index 0 "</h3>" title); [lia | reflexivity].
Qed.

Section RenderedTitle.

Variable strptime : string -> string -> option datetime.
Variable strftime : datetime -> string -> string.
Variable py_int : string -> option Z.
Variable datetime_ymd : Z -> Z -> Z -> option datetime.

Variable query : string.
Variables current_date latest : datetime.
Variable now : nat -> datetime.

Lemma pubmed_body_title index paper a :
  pubmed_body strftime py_int datetime_ymd query current_date latest index paper
  = Value (Some a) ->
  title_of a = PyStr.strip (before_close (pubmed_title paper)).
Proof.
  unfold pubmed_body, pubmed_title, title_of.
  destruct (History paper) as [dates|]; [|discriminate].
  destruct (online_date_of py_int datetime_ymd dates) as [dt|e]; [|discriminate].
  cbn [bind].
  destruct (is_valid_date current_date latest dt); [|discriminate].
  cbn [negb]. intro Hbody.
  apply (f_equal (fun v => match v with
                           | Value (Some x) => x
                           | _ => a
                           end)) in Hbody.
  lazy beta iota in Hbody. rewrite <- Hbody.
  lazy beta iota zeta delta [html].
  rewrite fragment_shape.
  apply extract_title_fragment, pubmed_hue.
Qed.

Lemma preprint_body_title index paper a :
  preprint_body strptime strftime query current_date latest index paper
  = Value (Some a) ->
  title_of a = PyStr.strip (before_close (preprint_title paper)).
Proof.
  unfold preprint_body, preprint_title, title_of, parse.
  destruct (pp_date paper) as [text|]; [|discriminate]. cbn [item bind].
  destruct (strptime text "%Y-%m-%d") as [dt|]; [|discriminate]. cbn [bind].
  destruct (is_valid_date current_date latest dt); [|discriminate].
  cbn [negb]. intro Hbody.
  apply (f_equal (fun v => match v with
                           | Value (Some x) => x
                           | _ => a
                           end)) in Hbody.
  lazy beta iota in Hbody. rewrite <- Hbody.
  lazy beta iota zeta delta [html].
  rewrite fragment_shape.
  apply extract_title_fragment, preprint_hue.
Qed.

Lemma researchsquare_body_title index paper a :
  researchsquare_body strptime strftime query current_date latest now index paper
  = Value (Some a) ->
  title_of a = PyStr.strip (before_close (researchsquare_title paper)).
Proof.
  unfold researchsquare_body, researchsquare_title, title_of, parse.
  destruct (rs_posted_at paper) as [text|]; [|discriminate]. cbn [item bind].
  destruct (strptime text "%Y-%m-%d %H:%M:%S") as [dt|]; [|discriminate].
  cbn [bind].
  destruct (is_valid_date current_date latest dt); [|discriminate].
  cbn [negb]. intro Hbody.
  apply (f_equal (fun v => match v with
                           | Value (Some x) => x
                           | _ => a
                           end)) in Hbody.
  lazy beta iota in Hbody. rewrite <- Hbody.
  lazy beta iota zeta delta [html].
  rewrite fragment_shape.
  apply extract_title_fragment, researchsquare_hue.
Qed.

(** X1. The title that [combine_and_display_results] reads back from the
    fragment of an article is the title the loop rendered (the record's
    title, or "No Title Available"), cut before its first [</h3>] if it
    has one, and stripped of surrounding white space. This holds for the
    three loops; a title without [</h3>] is read back whole. *)
Theorem rendered_title_is_key :
  forall (index : nat) (a : article),
    (forall paper,
        pubmed_body strftime py_int datetime_ymd query current_date latest index paper
        = Value (Some a) ->
        title_of a = PyStr.strip (before_close (pubmed_title paper)))
    /\ (forall paper,
          preprint_body strptime strftime query current_date latest index paper
          = Value (Some a) ->
          title_of a = PyStr.strip (before_close (preprint_title paper)))
    /\ (forall paper,
          researchsquare_body strptime strftime query current_date latest now index paper
          = Value (Some a) ->
          title_of a = PyStr.strip (before_close (researchsquare_title paper)))
    /\ (forall title, PyStr.find "</h3>" title = -1 -> before_close title = title).
Proof.
  intros index a.
  split; [|split; [|split]].
  - intro paper. apply pubmed_body_title.
  - intro paper. apply preprint_body_title.
  - intro paper. apply researchsquare_body_title.
  - exact before_close_whole.
Qed.

(** X2. A record without a title, from any of the three sources, yields
    an article filed under the key "No Title Available". *)
Theorem untitled_records_share_one_key :
  forall (index : nat) (a : article),
    (forall paper,
        ArticleTitle paper = None ->
        pubmed_body strftime py_int datetime_ymd query current_date latest index paper
        = Value (Some a) ->
        title_of a = "No Title Available")
    /\ (forall paper,
          pp_title paper = None ->
          preprint_body strptime strftime query current_date latest index paper
          = Value (Some a) ->
          title_of a = "No Title Available")
    /\ (forall paper,
          rs_title paper = None ->
          researchsquare_body strptime strftime query current_date latest now index paper
          = Value (Some a) ->
          title_of a = "No Title Available").
Proof.
  intros index a.
  split; [|split]; intros paper Hnone Hbody.
  - apply pubmed_body_title in Hbody. rewrite Hbody.
    unfold pubmed_title. now rewrite Hnone.
  - apply preprint_body_title in Hbody. rewrite Hbody.
    unfold preprint_title. now rewrite Hnone.
  - apply researchsquare_body_title in Hbody. rewrite Hbody.
    unfold researchsquare_title. now rewrite Hnone.
Qed.

End RenderedTitle.

(** ** More on requests with retries *)

Module RetryBounds.
Import Retry.

Lemma result_after {R} (evs : list event) (r : run R) :
  result (after evs r) = result r.
Proof. reflexivity. Qed.

(** As long as an iteration remains, the loop ends inside its body: the
    exception after the loop is not reached. *)
Lemma attempts_from_ends_inside {R} (request : nat -> outcome R)
    (max_retries : Z) (remaining : nat) :
  forall attempt delay,
    remaining <> O ->
    max_retries <= Z.of_nat attempt + Z.of_nat remaining ->
    result (attempts_from request max_retries remaining attempt delay)
    <> inr MaxRetriesReached.
Proof.
  induction remaining as [|remaining IH]; intros attempt delay Hpos Hroom.
  - contradiction.
  - simpl.
    destruct (request attempt) as [r | code | msg]; try discriminate.
    destruct ((code =? 500) && (Z.of_nat attempt <? max_retries - 1)) eqn:Hretry;
      [|discriminate].
    destruct (delay <? 0); [discriminate|].
    rewrite result_after.
    apply andb_true_iff in Hretry. destruct Hretry as [_ Hlt].
    apply Z.ltb_lt in Hlt.
    apply IH; lia.
Qed.

(** X3. [search_pubmed] and [fetch_pubmed_details] raise the exception
    "Max retries reached" exactly when [max_retries] is zero or negative,
    and then without making any attempt; when the retries are used up by
    failures, the caller gets the last failure instead. *)
Theorem max_retries_reached_iff_no_iteration :
  forall (R : Type) (request : nat -> outcome R) (max_retries initial_delay : Z),
    (result (search_pubmed request max_retries initial_delay) = inr MaxRetriesReached
     <-> max_retries <= 0)
    /\ (result (fetch_pubmed_details request max_retries initial_delay)
        = inr MaxRetriesReached
        <-> max_retries <= 0)
    /\ (max_retries <= 0 ->
        trace (search_pubmed request max_retries initial_delay) = []
        /\ trace (fetch_pubmed_details request max_retries initial_delay) = []).
Proof.
  intros R request max_retries initial_delay.
  assert (Hiff : result (search_pubmed request max_retries initial_delay)
                 = inr MaxRetriesReached <-> max_retries <= 0).
  { unfold search_pubmed. split.
    - intro Hres.
      destruct (Z.le_gt_cases max_retries 0) as [Hle | Hgt]; [exact Hle|].
      exfalso. revert Hres. apply attempts_from_ends_inside; lia.
    - intro Hle. replace (Z.to_nat max_retries) with O by lia. reflexivity. }
  split; [exact Hiff|]. split; [exact Hiff|].
  intro Hle. unfold fetch_pubmed_details, search_pubmed.
  replace (Z.to_nat max_retries) with O by lia. split; reflexivity.
Qed.

Lemma max_retries_reached_iff_no_iteration_witness :
  trace (search_pubmed always_unavailable 0 1) = []
  /\ trace (fetch_pubmed_details always_unavailable 0 1) = [].
Proof.
  destruct (max_retries_reached_iff_no_iteration Z always_unavailable 0 1)
    as (_ & _ & Hnone).
  apply Hnone. lia.
Defined.

(** When every attempt fails with status 500, the loop uses all its
    iterations and raises the last failure. *)
Lemma attempts_from_all_500 {R} (request : nat -> outcome R)
    (max_retries : Z) (remaining : nat) :
  (forall k, request k = HTTPError 500) ->
  forall attempt delay,
    Z.of_nat attempt + Z.of_nat (S remaining) = max_retries ->
    0 <= delay ->
    result (attempts_from request max_retries (S remaining) attempt delay)
    = inr (RaisedHTTPError 500)
    /\ attempts_made
         (trace (attempts_from request max_retries (S remaining) attempt delay))
       = S remaining.
Proof.
  intro Hall.
  induction remaining as [|remaining IH]; intros attempt delay Hsum Hdelay.
  - simpl. rewrite Hall.
    assert (Hlast : (Z.of_nat attempt <? max_retries - 1) = false)
      by (apply Z.ltb_ge; lia).
    rewrite Hlast. simpl. now split.
  - change (attempts_from request max_retries (S (S remaining)) attempt delay)
      with (match request attempt with
            | Returned results => mkRun (inl results) [Attempt attempt]
            | HTTPError code =>
                if (code =? 500) && (Z.of_nat attempt <? max_retries - 1) then
                  if delay <? 0 then mkRun (inr SleepValueError) [Attempt attempt]
                  else after [Attempt attempt; Sleep delay]
                         (attempts_from request max_retries (S remaining)
                            (S attempt) (delay * 2))
                else mkRun (inr (RaisedHTTPError code)) [Attempt attempt]
            | OtherError msg => mkRun (inr (RaisedOther msg)) [Attempt attempt]
            end).
    rewrite Hall.
    assert (Hmore : (Z.of_nat attempt <? max_retries - 1) = true)
      by (apply Z.ltb_lt; lia).
    assert (Hok : (delay <? 0) = false) by (apply Z.ltb_ge; lia).
    rewrite Hmore, Hok. cbn [Z.eqb Pos.eqb andb].
    destruct (IH (S attempt) (delay * 2)) as [Hres Hcount]; [lia | lia |].
    rewrite result_after. split; [exact Hres|].
    unfold after. cbn [trace].
    unfold attempts_made in *. cbn [app filter List.length].
    now rewrite Hcount.
Qed.

Lemma sum_doubling (d : Z) (n : nat) :
  fold_right Z.add 0 (map (fun j => d * 2 ^ Z.of_nat j) (seq 0 n))
  = d * (2 ^ Z.of_nat n - 1).
Proof.
  induction n as [|n IH].
  - simpl. ring.
  - rewrite seq_S, map_app, fold_right_app. simpl seq. simpl map.
    cbn [fold_right].
    assert (Hshift : forall l acc,
               fold_right Z.add acc l = fold_right Z.add 0 l + acc).
    { induction l as [|x l IHl]; intro acc; simpl; [lia|].
      rewrite IHl. lia. }
    rewrite Hshift, IH, Nat2Z.inj_succ, Z.pow_succ_r by lia. ring.
Qed.

(** The sleeps of any run add up to [initial_delay * (2^(n-1) - 1)], [n]
    being the number of attempts made. *)
Lemma total_sleep_of_run {R} (request : nat -> outcome R)
    (max_retries initial_delay : Z) :
  total_sleep (trace (search_pubmed request max_retries initial_delay))
  = initial_delay
    * (2 ^ Z.of_nat
             (Nat.pred (attempts_made
                          (trace (search_pubmed request max_retries initial_delay))))
       - 1)
  /\ (attempts_made (trace (search_pubmed request max_retries initial_delay))
      <= Z.to_nat max_retries)%nat.
Proof.
  destruct (RetryProperties.attempts_from_schedule request max_retries initial_delay
              (Z.to_nat max_retries) 0) as (count & Hle & _ & Htrace); [lia|].
  change (2 ^ Z.of_nat 0) with 1 in Htrace. rewrite Z.mul_1_r in Htrace.
  fold (search_pubmed request max_retries initial_delay) in Htrace.
  unfold total_sleep.
  rewrite Htrace, RetryProperties.attempts_made_tail, RetryProperties.sleeps_tail.
  split; [apply sum_doubling | exact Hle].
Qed.

(** X4. A service that answers every attempt with status 500: with at
    least one iteration and a delay that is not negative, [search_pubmed]
    makes exactly [max_retries] attempts, sleeps
    [initial_delay * (2^(max_retries-1) - 1)] seconds in all, and raises
    the [HTTPError] of the last attempt. *)
Theorem persistent_500_uses_every_retry :
  forall (R : Type) (request : nat -> outcome R) (max_retries initial_delay : Z),
    1 <= max_retries -> 0 <= initial_delay ->
    (forall k, request k = HTTPError 500) ->
    result (search_pubmed request max_retries initial_delay)
    = inr (RaisedHTTPError 500)
    /\ Z.of_nat (attempts_made (trace (search_pubmed request max_retries initial_delay)))
       = max_retries
    /\ total_sleep (trace (search_pubmed request max_retries initial_delay))
       = initial_delay * (2 ^ (max_retries - 1) - 1).
Proof.
  intros R request max_retries initial_delay Hmr Hdelay Hall.
  destruct (total_sleep_of_run request max_retries initial_delay) as [Hsleep _].
  assert (Hrun : result (search_pubmed request max_retries initial_delay)
                 = inr (RaisedHTTPError 500)
                 /\ attempts_made
                      (trace (search_pubmed request max_retries initial_delay))
                    = Z.to_nat max_retries).
  { unfold search_pubmed.
    destruct (Z.to_nat max_retries) as [|remaining] eqn:Hn; [lia|].
    apply attempts_from_all_500; [exact Hall | lia | exact Hdelay]. }
  destruct Hrun as [Hres Hcount].
  split; [exact Hres|]. split; [rewrite Hcount; lia|].
  rewrite Hsleep, Hcount. f_equal. f_equal. f_equal. lia.
Qed.

Lemma persistent_500_uses_every_retry_witness :
  result (search_pubmed always_unavailable default_max_retries default_initial_delay)
  = inr (RaisedHTTPError 500)
  /\ Z.of_nat (attempts_made
                 (trace (search_pubmed always_unavailable
                           default_max_retries default_initial_delay)))
     = default_max_retries
  /\ total_sleep (trace (search_pubmed always_unavailable
                           default_max_retries default_initial_delay))
     = default_initial_delay * (2 ^ (default_max_retries - 1) - 1).
Proof.
  apply (persistent_500_uses_every_retry Z always_unavailable
           default_max_retries default_initial_delay).
  - unfold default_max_retries. lia.
  - unfold default_initial_delay. lia.
  - reflexivity.
Defined.

(** X5. Whatever the service answers, a run of [search_pubmed] with at
    least one iteration and a delay that is not negative sleeps at most
    [initial_delay * (2^(max_retries-1) - 1)] seconds in all: three
    seconds with the default arguments. *)
Theorem total_sleep_bounded :
  forall (R : Type) (request : nat -> outcome R) (max_retries initial_delay : Z),
    1 <= max_retries -> 0 <= initial_delay ->
    0 <= total_sleep (trace (search_pubmed request max_retries initial_delay))
      <= initial_delay * (2 ^ (max_retries - 1) - 1).
Proof.
  intros R request max_retries initial_delay Hmr Hdelay.
  destruct (total_sleep_of_run request max_retries initial_delay) as [Hsleep Hle].
  rewrite Hsleep.
  set (n := attempts_made (trace (search_pubmed request max_retries initial_delay))) in *.
  assert (Hpow : 1 <= 2 ^ Z.of_nat (Nat.pred n) <= 2 ^ (max_retries - 1)).
  { split.
    - apply (Z.pow_le_mono_r 2 0); lia.
    - apply Z.pow_le_mono_r; lia. }
  split.
  - apply Z.mul_nonneg_nonneg; lia.
  - apply Z.mul_le_mono_nonneg_l; lia.
Qed.

Lemma total_sleep_bounded_witness :
  0 <= total_sleep (trace (search_pubmed twice_unavailable
                             default_max_retries default_initial_delay))
    <= default_initial_delay * (2 ^ (default_max_retries - 1) - 1).
Proof.
  apply (total_sleep_bounded Z twice_unavailable
           default_max_retries default_initial_delay).
  - unfold default_max_retries. lia.
  - unfold default_initial_delay. lia.
Defined.

End RetryBounds.

(** ** Colours and elapsed time *)

Lemma hue_by_elapsed_intro table lo hi recent moderate stale :
  lo < hi ->
  recent <> moderate -> recent <> stale -> moderate <> stale ->
  (forall now d,
     table now d =
       if days (now - d) <=? lo then recent
       else if days (now - d) <=? hi then moderate
       else stale) ->
  hue_by_elapsed table lo hi recent moderate stale.
Proof.
  intros Hlt Hrm Hrs Hms Heq now d.
  rewrite Heq.
  pose proof (days_le_iff (now - d) lo) as Hlo.
  pose proof (days_le_iff (now - d) hi) as Hhi.
  unfold timedelta_days.
  destruct (Z.leb_spec (days (now - d)) lo) as [H1 | H1];
    [|destruct (Z.leb_spec (days (now - d)) hi) as [H2 | H2]].
  - assert (now - d < (lo + 1) * us_per_day) by (apply Hlo; exact H1).
    assert (now - d < (hi + 1) * us_per_day) by (apply Hhi; lia).
    split; [|split]; split; intro; try congruence; try lia.
  - assert (~ now - d < (lo + 1) * us_per_day) by (rewrite <- Hlo; lia).
    assert (now - d < (hi + 1) * us_per_day) by (apply Hhi; exact H2).
    split; [|split]; split; intro; try congruence; try lia.
  - assert (~ now - d < (lo + 1) * us_per_day) by (rewrite <- Hlo; lia).
    assert (~ now - d < (hi + 1) * us_per_day) by (rewrite <- Hhi; lia).
    split; [|split]; split; intro; try congruence; try lia.
Qed.

(** X6. The colour tables count whole days that have passed, so on the
    clock their steps lie at 8 and 31 days for the three sources and at
    4 and 8 days for the generic helper: a date less than 8 days old (a
    date in the future too) gets the recent hue, a date from 8 to less
    than 31 days old the middle hue, an older one the stale hue. *)
Theorem hue_steps_on_the_clock :
  hue_by_elapsed get_pubmed_color 7 30 "#2E8B57" "#DAA520" "#B22222"
  /\ hue_by_elapsed get_preprint_color 7 30 "#98FB98" "#FAFAD2" "#FFA07A"
  /\ hue_by_elapsed get_researchsquare_color 7 30 "#8FBC8F" "#DEB887" "#CD5C5C"
  /\ hue_by_elapsed (fun now d => get_color_by_date now (Some d)) 3 7 GREEN YELLOW RED.
Proof.
  split; [|split; [|split]];
    (apply hue_by_elapsed_intro; [lia | discriminate .. | reflexivity]).
Qed.

(** ** Time frames *)

Lemma filter_filter {A} (p q : A -> bool) (l : list A) :
  (forall a, p a = true -> q a = true) ->
  filter p (filter q l) = filter p l.
Proof.
  intro Himp. induction l as [|a l IH]; simpl; [reflexivity|].
  destruct (q a) eqn:Hq; simpl.
  - destruct (p a); [now rewrite IH | exact IH].
  - destruct (p a) eqn:Hp; [|exact IH].
    apply Himp in Hp. congruence.
Qed.

Lemma filter_since_nested (s1 s2 : calendar_date) (articles : list article) :
  s2 <= s1 ->
  filter (fun a => s1 <=? date_of (date a))
    (filter (fun a => s2 <=? date_of (date a)) articles)
  = filter (fun a => s1 <=? date_of (date a)) articles.
Proof.
  intro Hle. apply filter_filter.
  intros a H. apply Z.leb_le in H. apply Z.leb_le. lia.
Qed.

(** X7. The time frames are nested and filtering twice changes nothing:
    the articles of today are those of the week that are of today, the
    articles of the week those of the month that are of the week, and
    applying any time frame to its own result gives that result back
    (the same clock reading being used). *)
Theorem timeframes_nest :
  forall (now : datetime) (articles : list article),
    let within tf l := filter_articles_by_timeframe now l tf in
    within (Some "today") (within (Some "week") articles)
    = within (Some "today") articles
    /\ within (Some "week") (within (Some "month") articles)
       = within (Some "week") articles
    /\ within (Some "today") (within (Some "month") articles)
       = within (Some "today") articles
    /\ (forall tf, within tf (within tf articles) = within tf articles).
Proof.
  intros now articles within. unfold within, filter_articles_by_timeframe.
  split; [|split; [|split]].
  - simpl. apply filter_since_nested. lia.
  - simpl. apply filter_since_nested. lia.
  - simpl. apply filter_since_nested. lia.
  - intro tf. destruct (start_date_of (date_of now) tf) as [start|]; [|reflexivity].
    apply filter_since_nested. lia.
Qed.

(** ** The articles of one query *)

Lemma filter_articles_by_timeframe_app now l1 l2 timeframe :
  filter_articles_by_timeframe now (l1 ++ l2) timeframe
  = filter_articles_by_timeframe now l1 timeframe
    ++ filter_articles_by_timeframe now l2 timeframe.
Proof.
  unfold filter_articles_by_timeframe.
  destruct (start_date_of (date_of now) timeframe); [apply filter_app | reflexivity].
Qed.

Section OneQuery.

Variable strptime : string -> string -> option datetime.
Variable strftime : datetime -> string -> string.
Variable py_int : string -> option Z.
Variable datetime_ymd : Z -> Z -> Z -> option datetime.

Lemma pubmed_body_query q current_date latest index paper a :
  pubmed_body strftime py_int datetime_ymd q current_date latest index paper
  = Value (Some a) ->
  query a = q.
Proof.
  unfold pubmed_body.
  destruct (History paper) as [dates|]; [|discriminate].
  destruct (online_date_of py_int datetime_ymd dates) as [dt|e]; [|discriminate].
  cbn [bind].
  destruct (is_valid_date current_date latest dt); [|discriminate].
  cbn [negb]. intro H.
  apply (f_equal (fun v => match v with
                           | Value (Some x) => query x
                           | _ => q
                           end)) in H.
  symmetry. exact H.
Qed.

Lemma preprint_body_query q current_date latest index paper a :
  preprint_body strptime strftime q current_date latest index paper
  = Value (Some a) ->
  query a = q.
Proof.
  unfold preprint_body, parse.
  destruct (pp_date paper) as [text|]; [|discriminate]. cbn [item bind].
  destruct (strptime text "%Y-%m-%d") as [dt|]; [|discriminate]. cbn [bind].
  destruct (is_valid_date current_date latest dt); [|discriminate].
  cbn [negb]. intro H.
  apply (f_equal (fun v => match v with
                           | Value (Some x) => query x
                           | _ => q
                           end)) in H.
  symmetry. exact H.
Qed.

Lemma researchsquare_body_query q current_date latest now index paper a :
  researchsquare_body strptime strftime q current_date latest now index paper
  = Value (Some a) ->
  query a = q.
Proof.
  unfold researchsquare_body, parse.
  destruct (rs_posted_at paper) as [text|]; [|discriminate]. cbn [item bind].
  destruct (strptime text "%Y-%m-%d %H:%M:%S") as [dt|]; [|discriminate].
  cbn [bind].
  destruct (is_valid_date current_date latest dt); [|discriminate].
  cbn [negb]. intro H.
  apply (f_equal (fun v => match v with
                           | Value (Some x) => query x
                           | _ => q
                           end)) in H.
  symmetry. exact H.
Qed.

(** The three loops one after the other. *)
Lemma normalized_articles_parts q observed max_future_months :
  normalized_articles strptime strftime py_int datetime_ymd q observed max_future_months
  = collected
      (pubmed_body strftime py_int datetime_ymd q (current_date observed)
         (max_future_date (current_date observed) max_future_months))
      (pubmed_papers observed)
    ++ collected
         (preprint_body strptime strftime q (current_date observed)
            (max_future_date (current_date observed) max_future_months))
         (preprint_results observed)
    ++ collected
         (researchsquare_body strptime strftime q (current_date observed)
            (max_future_date (current_date observed) max_future_months)
            (researchsquare_now observed))
         (researchsquare_results observed).
Proof.
  unfold normalized_articles, collected. cbv zeta.
  rewrite for_each_paper_app.
  rewrite (for_each_paper_app (preprint_body _ _ _ _ _)).
  now rewrite <- app_assoc.
Qed.

(** X8. [search_articles] returns the articles source by source: first
    those of the citation source, then those of the preprint
    aggregator, then those of the preprint server, each in the order of
    its payload; a time frame filters each of the three parts and keeps
    this order. *)
Theorem search_articles_source_by_source :
  forall (q : string) (observed : observation) (timeframe : option string)
         (max_future_months : Z),
    let keep l :=
      if timeframe_given timeframe
      then filter_articles_by_timeframe (filter_now observed) l timeframe
      else l in
    search_articles strptime strftime py_int datetime_ymd
      q observed timeframe max_future_months
    = keep (collected
              (pubmed_body strftime py_int datetime_ymd q (current_date observed)
                 (max_future_date (current_date observed) max_future_months))
              (pubmed_papers observed))
      ++ keep (collected
                 (preprint_body strptime strftime q (current_date observed)
                    (max_future_date (current_date observed) max_future_months))
                 (preprint_results observed))
      ++ keep (collected
                 (researchsquare_body strptime strftime q (current_date observed)
                    (max_future_date (current_date observed) max_future_months)
                    (researchsquare_now observed))
                 (researchsquare_results observed)).
Proof.
  intros q observed timeframe max_future_months keep.
  unfold search_articles, keep. cbv zeta.
  rewrite normalized_articles_parts.
  destruct (timeframe_given timeframe); [|reflexivity].
  now rewrite !filter_articles_by_timeframe_app.
Qed.

Lemma search_articles_query q observed timeframe max_future_months a :
  In a (search_articles strptime strftime py_int datetime_ymd
          q observed timeframe max_future_months) ->
  query a = q.
Proof.
  intro Hin.
  assert (Hnorm : In a (normalized_articles strptime strftime py_int datetime_ymd
                          q observed max_future_months)).
  { unfold search_articles in Hin. cbv zeta in Hin.
    destruct (timeframe_given timeframe); [|exact Hin].
    eapply filter_articles_by_timeframe_incl. exact Hin. }
  unfold normalized_articles in Hnorm. cbv zeta in Hnorm.
  apply for_each_paper_In in Hnorm.
  destruct Hnorm as [Hnorm | (i & paper & _ & Hbody)];
    [|eapply researchsquare_body_query; exact Hbody].
  apply for_each_paper_In in Hnorm.
  destruct Hnorm as [Hnorm | (i & paper & _ & Hbody)];
    [|eapply preprint_body_query; exact Hbody].
  apply for_each_paper_In in Hnorm.
  destruct Hnorm as [[] | (i & paper & _ & Hbody)].
  eapply pubmed_body_query; exact Hbody.
Qed.

(** X9. Every article [search_articles] returns carries the query it was
    searched for, and when a recognised time frame is given it is dated
    on or after the start day of the frame as well as inside the
    validity window. *)
Theorem search_articles_provenance :
  forall (q : string) (observed : observation) (timeframe : option string)
         (max_future_months : Z) (a : article),
    In a (search_articles strptime strftime py_int datetime_ymd
            q observed timeframe max_future_months) ->
    query a = q
    /\ current_date observed - timedelta_days (5 * 365)
       <= date a
       <= current_date observed + timedelta_days (max_future_months * 30)
    /\ (forall start,
          timeframe_given timeframe = true ->
          start_date_of (date_of (filter_now observed)) timeframe = Some start ->
          midnight start <= date a).
Proof.
  intros q observed timeframe max_future_months a Hin.
  split; [|split].
  - eapply search_articles_query. exact Hin.
  - apply is_valid_date_iff.
    apply (search_articles_valid strptime strftime py_int datetime_ymd
             timeframe max_future_months q observed a Hin).
  - intros start Hgiven Hstart.
    unfold search_articles in Hin. cbv zeta in Hin. rewrite Hgiven in Hin.
    unfold filter_articles_by_timeframe in Hin. cbv zeta in Hin.
    rewrite Hstart in Hin.
    apply filter_In in Hin. destruct Hin as [_ Hge].
    apply Z.leb_le in Hge. now apply date_of_ge_iff.
Qed.

End OneQuery.

(** A run of X9: the first article found for "covid" in the sample
    world, searched with the time frame "month". *)
Lemma search_articles_provenance_witness :
  query (stored Samples.first_combined) = "covid"
  /\ current_date (Samples.world 0) - timedelta_days (5 * 365)
     <= date (stored Samples.first_combined)
     <= current_date (Samples.world 0) + timedelta_days (6 * 30)
  /\ (forall start,
        timeframe_given (Some "month") = true ->
        start_date_of (date_of (filter_now (Samples.world 0))) (Some "month")
        = Some start ->
        midnight start <= date (stored Samples.first_combined)).
Proof.
  apply (search_articles_provenance Samples.strptime Samples.strftime Samples.py_int
           Samples.datetime_ymd "covid" (Samples.world 0) (Some "month") 6
           (stored Samples.first_combined)).
  vm_compute. left. reflexivity.
Defined.

(** ** What the merge keeps *)

Lemma first_seen_titles_length (results : stream) :
  (List.length (first_seen_titles results) <= List.length results)%nat.
Proof.
  unfold first_seen_titles.
  induction results as [|visit results IH] using rev_ind.
  - simpl. lia.
  - rewrite fold_left_app, length_app. simpl.
    destruct (existsb _ _); [lia|].
    rewrite length_app. simpl. lia.
Qed.

Lemma total_queries_perm l l' :
  Permutation l l' -> total_queries l = total_queries l'.
Proof.
  unfold total_queries.
  induction 1 as [| x l l' _ IH | x y l | l l' l'' _ IH1 _ IH2]; simpl; lia.
Qed.

Lemma total_queries_append_query key query seen found :
  lookup key seen = Some found ->
  total_queries (values (append_query key query seen))
  = S (total_queries (values seen)).
Proof.
  unfold total_queries, values.
  induction seen as [|[k e] rest IH]; simpl; [discriminate|].
  destruct (String.eqb k key); simpl.
  - intros _. rewrite length_app. simpl. lia.
  - intro H. rewrite (IH H). lia.
Qed.

Lemma total_queries_merge_result query seen result :
  total_queries (values (merge_result query seen result))
  = S (total_queries (values seen)).
Proof.
  unfold merge_result.
  destruct (lookup (extract_title (html result)) seen) as [found|] eqn:Hlookup.
  - eapply total_queries_append_query. exact Hlookup.
  - unfold total_queries, values. rewrite !map_app, list_sum_app. simpl. lia.
Qed.

Lemma total_queries_merge_stream results :
  total_queries (values (merge_stream results [])) = List.length results.
Proof.
  induction results as [|[query result] results IH] using rev_ind.
  - reflexivity.
  - rewrite merge_stream_snoc, total_queries_merge_result, IH, length_app.
    simpl. lia.
Qed.

Section MergeCounts.

Variable strptime : string -> string -> option datetime.
Variable strftime : datetime -> string -> string.
Variable py_int : string -> option Z.
Variable datetime_ymd : Z -> Z -> Z -> option datetime.

Variable world : nat -> observation.
Variable timeframe : option string.
Variable max_future_months : Z.

Let visits asked :=
  results_stream strptime strftime py_int datetime_ymd
    world 0 asked timeframe max_future_months.
Let merged asked :=
  combine_and_display_results strptime strftime py_int datetime_ymd
    world asked timeframe max_future_months.

Lemma merged_perm_stream asked :
  Permutation (merged asked) (values (merge_stream (visits asked) [])).
Proof.
  unfold merged, visits.
  rewrite <- (inserted_stream strptime strftime py_int datetime_ymd
                world timeframe max_future_months asked).
  apply merged_perm.
Qed.

(** X10. No two articles of the merged result show the same title; the
    result has as many articles as the searches returned distinct
    titles, so never more than they returned results; and without
    queries it is empty. *)
Theorem merged_titles_distinct :
  forall asked : list string,
    NoDup (map (fun a => title_of (stored a)) (merged asked))
    /\ List.length (merged asked) = List.length (first_seen_titles (visits asked))
    /\ (List.length (merged asked) <= List.length (visits asked))%nat
    /\ merged [] = [].
Proof.
  intro asked.
  pose proof (merged_perm_stream asked) as Hperm.
  pose proof (merge_stream_well_keyed (visits asked)) as Hkeyed.
  assert (Hlen : List.length (merged asked)
                 = List.length (first_seen_titles (visits asked))).
  { rewrite (Permutation_length Hperm), <- merge_stream_keys.
    unfold values. now rewrite !length_map. }
  split; [|split; [|split]].
  - apply (Permutation_NoDup
             (l := map (fun a => title_of (stored a))
                     (values (merge_stream (visits asked) [])))).
    + apply Permutation_map, Permutation_sym, Hperm.
    + rewrite values_titles by exact Hkeyed. apply Hkeyed.
  - exact Hlen.
  - rewrite Hlen. apply first_seen_titles_length.
  - reflexivity.
Qed.

(** X11. No search result is lost or counted twice by the merge: the
    [queries] lists of the merged articles hold, taken together, one
    entry for each result that the searches returned. *)
Theorem every_result_is_counted_once :
  forall asked : list string,
    total_queries (merged asked) = List.length (visits asked).
Proof.
  intro asked.
  rewrite (total_queries_perm _ _ (merged_perm_stream asked)).
  apply total_queries_merge_stream.
Qed.

End MergeCounts.

(** X12. One step of the merge never drops or reorders anything: the
    keys already in the dict stay, in their order, with at most one new
    key after them; every entry keeps its stored article and its queries
    as a prefix of its new queries; and the entry of the result's title
    ends with the query just merged. *)
Theorem merge_result_only_adds :
  forall (q : string) (seen : seen_titles) (result : article),
    (exists added, map fst (merge_result q seen result) = map fst seen ++ added
                   /\ (List.length added <= 1)%nat)
    /\ (forall title entry,
          lookup title seen = Some entry ->
          exists entry' more,
            lookup title (merge_result q seen result) = Some entry'
            /\ stored entry' = stored entry
            /\ queries entry' = queries entry ++ more)
    /\ (exists entry earlier,
          lookup (title_of result) (merge_result q seen result) = Some entry
          /\ queries entry = earlier ++ [q]).
Proof.
  intros q seen result.
  unfold merge_result. fold (title_of result).
  destruct (lookup (title_of result) seen) as [found|] eqn:Hfound.
  - split; [|split].
    + exists []. rewrite append_query_keys, app_nil_r. split; [reflexivity | simpl; lia].
    + intros title entry Hentry. rewrite lookup_append_query.
      destruct (String.eqb (title_of result) title).
      * rewrite Hentry. simpl. eexists. exists [q]. repeat split.
      * exists entry, []. rewrite app_nil_r. now repeat split.
    + rewrite lookup_append_query, String.eqb_refl, Hfound. simpl.
      eexists. exists (queries found). split; reflexivity.
  - split; [|split].
    + exists [title_of result]. rewrite map_app. split; [reflexivity | simpl; lia].
    + intros title entry Hentry. rewrite lookup_snoc, Hentry.
      exists entry, []. rewrite app_nil_r. now repeat split.
    + rewrite lookup_snoc, Hfound, String.eqb_refl.
      eexists. exists []. split; reflexivity.
Qed.

(** ** Pages of results *)

(** X13. The three searches ask for the same slice of the results: it
    starts at [(page - 1) * results_per_page] and is [results_per_page]
    long. With a positive page size the slices of the pages 1, 2, ...
    follow one another from 0 without gap or overlap: the result of
    index [i] is on page [i / results_per_page + 1] and on no other. *)
Theorem pages_tile_the_results :
  forall (strftime : datetime -> string -> string) (now_end now_start : datetime)
         (q : string) (timeframe : option string) (results_per_page i : Z),
    0 < results_per_page -> 0 <= i ->
    let start page := retstart (search_pubmed_params q page results_per_page) in
    (forall page,
        path_start (search_preprints_request q page results_per_page) = start page
        /\ offset (search_researchsquare_params strftime now_end now_start
                     q page results_per_page timeframe) = start page
        /\ retmax (search_pubmed_params q page results_per_page) = results_per_page
        /\ path_count (search_preprints_request q page results_per_page)
           = results_per_page
        /\ limit (search_researchsquare_params strftime now_end now_start
                    q page results_per_page timeframe) = results_per_page)
    /\ start 1 = 0
    /\ (forall page, start (page + 1) = start page + results_per_page)
    /\ (forall page,
          start page <= i < start page + results_per_page
          <-> page = i / results_per_page + 1).
Proof.
  intros strftime now_end now_start q timeframe rpp i Hrpp Hi start.
  unfold start. cbn [retstart search_pubmed_params].
  split; [|split; [|split]].
  - intro page. repeat split.
  - unfold start_of_page. lia.
  - intro page. unfold start_of_page. lia.
  - intro page. unfold start_of_page.
    pose proof (Z.div_mod i rpp) as Hdiv.
    pose proof (Z.mod_pos_bound i rpp Hrpp) as Hmod.
    split.
    + intros [Hlo Hhi].
      assert (Hq : i / rpp = page - 1); [|lia].
      symmetry. apply (Z.div_unique_pos i rpp (page - 1) (i - (page - 1) * rpp)); lia.
    + intros ->. nia.
Qed.

Lemma pages_tile_the_results_witness :
  retstart (search_pubmed_params "covid" 1 200) = 0
  /\ (forall page,
        retstart (search_pubmed_params "covid" page 200) <= 450
        < retstart (search_pubmed_params "covid" page 200) + 200
        <-> page = 450 / 200 + 1).
Proof.
  destruct (pages_tile_the_results Samples.strftime Samples.now Samples.now
              "covid" None 200 450) as (_ & Hfirst & _ & Hpage); [lia | lia |].
  split; [exact Hfirst | exact Hpage].
Defined.

(** ** Author lists *)

Lemma truthy_nonempty (s : string) : PyStr.truthy s = true -> s <> EmptyString.
Proof. destruct s; [discriminate | discriminate]. Qed.

Lemma format_author_nonempty (author : pubmed_author) :
  format_author author <> EmptyString.
Proof.
  unfold format_author. cbv zeta.
  destruct (PyStr.truthy (get (LastName author) EmptyString)) eqn:Hlast;
    destruct (PyStr.truthy (get (Initials author) EmptyString)) eqn:Hinit;
    cbn [andb].
  - destruct (get (LastName author) EmptyString); [discriminate | discriminate].
  - now apply truthy_nonempty.
  - now apply truthy_nonempty.
  - discriminate.
Qed.

(** X14. [format_author_list] names at most five authors: of a longer
    list it shows what it shows of the first five, followed by
    ", et al."; a list of up to five is shown whole. No author is shown
    as an empty name: one without last name and initials appears as
    "Unknown Author". *)
Theorem format_author_list_shows_five :
  forall authors : list pubmed_author,
    ((5 < List.length authors)%nat ->
     format_author_list authors
     = (format_author_list (firstn 5 authors) ++ ", et al.")%string)
    /\ ((List.length authors <= 5)%nat ->
        format_author_list authors = PyStr.join ", " (map format_author authors))
    /\ Forall (fun name => name <> EmptyString) (map format_author authors)
    /\ (forall author,
          get (LastName author) EmptyString = EmptyString ->
          get (Initials author) EmptyString = EmptyString ->
          format_author author = "Unknown Author").
Proof.
  intro authors.
  split; [|split; [|split]].
  - intro Hlong. unfold format_author_list.
    assert (Hfive : List.length (firstn 5 authors) = 5%nat)
      by (rewrite length_firstn; lia).
    apply Nat.ltb_lt in Hlong. rewrite Hlong, Hfive. reflexivity.
  - intro Hshort. unfold format_author_list.
    assert (Hno : (5 <? List.length authors)%nat = false)
      by (apply Nat.ltb_ge; lia).
    now rewrite Hno.
  - apply Forall_forall. intros name Hin.
    apply in_map_iff in Hin. destruct Hin as (author & <- & _).
    apply format_author_nonempty.
  - intros author Hlast Hinit. unfold format_author. cbv zeta.
    now rewrite Hlast, Hinit.
Qed.

(** ** Queries that match a text *)

Lemma contains_refl (s : string) : contains s s = true.
Proof.
  destruct s as [|c s]; simpl; [reflexivity|].
  change (match ascii_dec c c with
          | left _ => String.prefix s s
          | right _ => false
          end) with (String.prefix (String c s) (String c s)).
  now rewrite prefix_refl.
Qed.

Lemma contains_empty (s : string) : contains EmptyString s = true.
Proof. destruct s; reflexivity. Qed.

(** X15. [get_matching_queries] selects, in their order, the queries
    whose lower-case form occurs in the lower-case text, so it does not
    depend on the case of either, as far as [str.lower] removes it. A
    query matches a text that equals it up to case; applying the
    function to its own result changes nothing. *)
Theorem get_matching_queries_selects :
  forall (lower : string -> string) (text : string) (queries : list string),
    (forall q, In q (get_matching_queries lower text queries)
               <-> In q queries /\ contains (lower q) (lower text) = true)
    /\ (forall q, In q queries -> lower q = lower text ->
                  In q (get_matching_queries lower text queries))
    /\ (forall text', lower text' = lower text ->
                      get_matching_queries lower text' queries
                      = get_matching_queries lower text queries)
    /\ get_matching_queries lower text (get_matching_queries lower text queries)
       = get_matching_queries lower text queries
    /\ (forall more,
          get_matching_queries lower text (queries ++ more)
          = get_matching_queries lower text queries
            ++ get_matching_queries lower text more).
Proof.
  intros lower text queries. unfold get_matching_queries.
  split; [|split; [|split; [|split]]].
  - intro q. now rewrite filter_In.
  - intros q Hin Heq. rewrite filter_In. split; [exact Hin|].
    rewrite Heq. apply contains_refl.
  - intros text' Heq. now rewrite Heq.
  - apply filter_filter. auto.
  - intro more. apply filter_app.
Qed.

(** ** The keys of a merged article *)

Section MergedKeys.

Variable strptime : string -> string -> option datetime.
Variable strftime : datetime -> string -> string.
Variable py_int : string -> option Z.
Variable datetime_ymd : Z -> Z -> Z -> option datetime.

Variable world : nat -> observation.
Variable timeframe : option string.
Variable max_future_months : Z.

Let visits asked :=
  results_stream strptime strftime py_int datetime_ymd
    world 0 asked timeframe max_future_months.
Let merged asked :=
  combine_and_display_results strptime strftime py_int datetime_ymd
    world asked timeframe max_future_months.

Lemma visit_query asked q result :
  In (q, result) (visits asked) -> query result = q /\ In q asked.
Proof.
  intro Hin.
  apply (visits_In strptime strftime py_int datetime_ymd
           world timeframe max_future_months) in Hin.
  destruct Hin as (position & Hnth & Hsearch).
  split.
  - eapply search_articles_query. exact Hsearch.
  - eapply nth_error_In. exact Hnth.
Qed.

(** X16. In every merged article the key [query], which the search
    wrote, is the first entry of [queries], which the merge wrote; and
    every entry of [queries] is one of the queries asked. *)
Theorem merged_queries_start_with_query :
  forall (asked : list string) (a : merged_article),
    In a (merged asked) ->
    hd_error (queries a) = Some (query (stored a))
    /\ Forall (fun q => In q asked) (queries a).
Proof.
  intros asked a Hin.
  apply (merged_filed strptime strftime py_int datetime_ymd
           world timeframe max_future_months) in Hin.
  unfold filed in Hin. fold (visits asked) in Hin.
  destruct (sightings (title_of (stored a)) (visits asked))
    as [|[q0 r0] later] eqn:Hsightings; [discriminate|].
  injection Hin as <-. cbn [stored queries hd_error].
  assert (Hsub : forall visit,
             In visit ((q0, r0) :: later) -> In visit (visits asked)).
  { intros visit Hv. rewrite <- Hsightings in Hv.
    apply filter_In in Hv. tauto. }
  split.
  - f_equal. symmetry.
    apply (visit_query asked q0 r0). apply Hsub. now left.
  - apply Forall_forall. intros q Hq.
    change (q0 :: map fst later) with (map fst ((q0, r0) :: later)) in Hq.
    apply in_map_iff in Hq. destruct Hq as ([q' r'] & Heq & Hv).
    simpl in Heq. subst q'.
    apply (visit_query asked q r'). now apply Hsub.
Qed.

End MergedKeys.

(** A run of X16 on the first article of the sample result. *)
Lemma merged_queries_start_with_query_witness :
  hd_error (queries Samples.first_combined)
  = Some (query (stored Samples.first_combined))
  /\ Forall (fun q => In q Samples.two_queries) (queries Samples.first_combined).
Proof.
  apply (merged_queries_start_with_query Samples.strptime Samples.strftime
           Samples.py_int Samples.datetime_ymd Samples.world None 6
           Samples.two_queries Samples.first_combined).
  vm_compute. left. reflexivity.
Defined.

(** ** Colour and fragment of an article *)

Section ArticleKeys.

Variable strptime : string -> string -> option datetime.
Variable strftime : datetime -> string -> string.
Variable py_int : string -> option Z.
Variable datetime_ymd : Z -> Z -> Z -> option datetime.

Variable q : string.
Variables current_date latest : datetime.
Variable now : nat -> datetime.

(** X17. The keys of an article agree with one another: its [color] is
    the hue its source's table gives its [date], and its [html] opens
    with the [div] in that colour, followed by the title in [h3] tags. *)
Theorem article_keys_agree :
  forall (index : nat) (a : article),
    (forall paper,
        pubmed_body strftime py_int datetime_ymd q current_date latest index paper
        = Value (Some a) ->
        color a = get_pubmed_color current_date (date a)
        /\ exists rest,
             html a = (fragment_head (color a) ++ pubmed_title paper
                       ++ "</h3>" ++ rest)%string)
    /\ (forall paper,
          preprint_body strptime strftime q current_date latest index paper
          = Value (Some a) ->
          color a = get_preprint_color current_date (date a)
          /\ exists rest,
               html a = (fragment_head (color a) ++ preprint_title paper
                         ++ "</h3>" ++ rest)%string)
    /\ (forall paper,
          researchsquare_body strptime strftime q current_date latest now index paper
          = Value (Some a) ->
          color a = get_researchsquare_color (now index) (date a)
          /\ exists rest,
               html a = (fragment_head (color a) ++ researchsquare_title paper
                         ++ "</h3>" ++ rest)%string).
Proof.
  intros index a.
  split; [|split]; intro paper.
  - unfold pubmed_body, pubmed_title.
    destruct (History paper) as [dates|]; [|discriminate].
    destruct (online_date_of py_int datetime_ymd dates) as [dt|e]; [|discriminate].
    cbn [bind].
    destruct (is_valid_date current_date latest dt); [|discriminate].
    cbn [negb]. intro Hbody.
    apply (f_equal (fun v => match v with
                             | Value (Some x) => x
                             | _ => a
                             end)) in Hbody.
    lazy beta iota in Hbody. rewrite <- Hbody.
    lazy beta iota zeta delta [html color date].
    split; [reflexivity|].
    rewrite fragment_shape. eexists. reflexivity.
  - unfold preprint_body, preprint_title, parse.
    destruct (pp_date paper) as [text|]; [|discriminate]. cbn [item bind].
    destruct (strptime text "%Y-%m-%d") as [dt|]; [|discriminate]. cbn [bind].
    destruct (is_valid_date current_date latest dt); [|discriminate].
    cbn [negb]. intro Hbody.
    apply (f_equal (fun v => match v with
                             | Value (Some x) => x
                             | _ => a
                             end)) in Hbody.
    lazy beta iota in Hbody. rewrite <- Hbody.
    lazy beta iota zeta delta [html color date].
    split; [reflexivity|].
    rewrite fragment_shape. eexists. reflexivity.
  - unfold researchsquare_body, researchsquare_title, parse.
    destruct (rs_posted_at paper) as [text|]; [|discriminate]. cbn [item bind].
    destruct (strptime text "%Y-%m-%d %H:%M:%S") as [dt|]; [|discriminate].
    cbn [bind].
    destruct (is_valid_date current_date latest dt); [|discriminate].
    cbn [negb]. intro Hbody.
    apply (f_equal (fun v => match v with
                             | Value (Some x) => x
                             | _ => a
                             end)) in Hbody.
    lazy beta iota in Hbody. rewrite <- Hbody.
    lazy beta iota zeta delta [html color date].
    split; [reflexivity|].
    rewrite fragment_shape. eexists. reflexivity.
Qed.

End ArticleKeys.

(** ** The extracted title on samples *)

(** A run of X1: the key of the first sample article is the title of
    the preprint it was rendered from. *)
Lemma rendered_title_is_key_witness :
  title_of (stored Samples.first_combined)
  = PyStr.strip (before_close (preprint_title Samples.recent_preprint)).
Proof.
  destruct (rendered_title_is_key Samples.strptime Samples.strftime Samples.py_int
              Samples.datetime_ymd "covid" Samples.now
              (max_future_date Samples.now 6) (fun _ => Samples.now)
              0 (stored Samples.first_combined)) as (_ & Hpreprint & _).
  apply Hpreprint. vm_compute. reflexivity.
Defined.

(** A title with a closing tag inside is cut there: the key of
    "  Dose </h3> response " is "Dose". *)
Lemma sample_title_cut_at_close_tag :
  map title_of
    (collected
       (preprint_body Samples.strptime Samples.strftime "covid" Samples.now
          (max_future_date Samples.now 6))
       [Samples.tagged_title_preprint])
  = ["Dose"].
Proof. vm_compute. reflexivity. Qed.

(** Titles that differ only by a no-break space at the end have one key:
    the two results are merged into one article, which lists both
    queries. *)
Lemma no_break_space_is_stripped :
  map (fun m => (title_of (stored m), queries m))
    (combine_and_display_results Samples.strptime Samples.strftime Samples.py_int
       Samples.datetime_ymd Samples.nbsp_world ["dose"; "response"] None 6)
  = [("Dose response", ["dose"; "response"])].
Proof. vm_compute. reflexivity. Qed.
